(** * smart-websearch-mcp: the WebSocket MCP server, embedded and verified

    A shallow embedding of [mcp_websearch_server.py]: the search adapter
    [search_with_claude], the tool registry [list_tools], the tool
    dispatcher [call_tool] and the per-connection loop [handle_websocket].

    Python values that travel through the server are the values
    [json.loads] can return; they are modelled by [json].  Effects are
    modelled by a state-and-exception monad over the connection's event
    trace: calls to the external provider and frames written to the
    socket.  Calls to [logger] write to the process log only and are left
    out.  Raised objects are instances of Python's [Exception]; the
    [BaseException]s that end the process or cancel the task are outside
    the model, as is a transport that closes while a response is written. *)

From Stdlib Require Import List String Ascii ZArith Bool Lia.
From Stdlib Require Import Floats.PrimFloat.
From Stdlib Require DecimalString.
Import ListNotations.
Set Warnings "-register-all".
Local Open Scope string_scope.

(* ================================================================== *)
(** * Python values *)

(** What [json.loads] yields: [None], [bool], [int], [float], [str],
    [list] and [dict].  A [dict] keeps insertion order and holds a key
    once; it is an association list read by its first match. *)
Inductive json : Type :=
| JNull
| JBool (b : bool)
| JInt (z : Z)
| JFloat (f : float)
| JString (s : string)
| JArray (items : list json)
| JObject (fields : list (string * json)).

(** [d.get(key)] on the fields of a dict. *)
Fixpoint dict_get (key : string) (fields : list (string * json)) : option json :=
  match fields with
  | [] => None
  | (k, v) :: rest => if String.eqb k key then Some v else dict_get key rest
  end.

(** [d.get(key, default)] on the fields of a dict. *)
Definition dict_get_default (key : string) (default : json)
  (fields : list (string * json)) : json :=
  match dict_get key fields with Some x => x | None => default end.

(** [key in d]. *)
Definition dict_mem (key : string) (fields : list (string * json)) : bool :=
  match dict_get key fields with Some _ => true | None => false end.

(** [isinstance(v, dict)]. *)
Definition is_dict (v : json) : bool :=
  match v with JObject _ => true | _ => false end.

(** [v == s] for a string literal [s]: only a [str] equals a [str]. *)
Definition eq_str (v : json) (s : string) : bool :=
  match v with JString t => String.eqb t s | _ => false end.

(** [type(v).__name__]. *)
Definition type_name (v : json) : string :=
  match v with
  | JNull => "NoneType"
  | JBool _ => "bool"
  | JInt _ => "int"
  | JFloat _ => "float"
  | JString _ => "str"
  | JArray _ => "list"
  | JObject _ => "dict"
  end.

(** Does a response envelope carry the field [key]? *)
Definition has_field (key : string) (v : json) : bool :=
  match v with JObject fields => dict_mem key fields | _ => false end.

(** The field [key] of an envelope, [None] (Python's) when it is absent. *)
Definition field (key : string) (v : json) : json :=
  match v with
  | JObject fields => dict_get_default key JNull fields
  | _ => JNull
  end.

(** The newline character and [sep.join(parts)]. *)
Definition nl : string := String (ascii_of_nat 10) EmptyString.

Definition join (sep : string) (parts : list string) : string :=
  String.concat sep parts.

(** [str(z)] for an [int]. *)
Definition int_str (z : Z) : string :=
  DecimalString.NilZero.string_of_int (Z.to_int z).

(** ** [str] and [repr]

    [repr] of a [float] (shortest round-tripping digits) and of a [str]
    (quote choice and escapes) are the interpreter's; they are taken as
    given.  Everything else is spelled out. *)
Section Repr.
Variable float_repr : float -> string.
Variable str_repr : string -> string.

Fixpoint py_repr (v : json) : string :=
  match v with
  | JNull => "None"
  | JBool true => "True"
  | JBool false => "False"
  | JInt z => int_str z
  | JFloat f => float_repr f
  | JString s => str_repr s
  | JArray items => "[" ++ join ", " (map py_repr items) ++ "]"
  | JObject fields =>
      "{" ++ join ", "
               (map (fun kv => str_repr (fst kv) ++ ": " ++ py_repr (snd kv)) fields)
          ++ "}"
  end.

(** [str(v)], which is also what an f-string field [{v}] renders. *)
Definition py_str (v : json) : string :=
  match v with
  | JString s => s
  | _ => py_repr v
  end.
End Repr.

(* ================================================================== *)
(** * Effects *)

(** A raised [Exception]; the server only ever reads [str(e)]. *)
Record exn : Type := Exception { exn_str : string }.

Inductive outcome (A : Type) : Type :=
| Ok (a : A)
| Raised (e : exn).
Arguments Ok {A} a.
Arguments Raised {A} e.

(** The keyword arguments of [client.messages.create]. *)
Record create_args : Type := CreateArgs {
  model : string;
  max_tokens : Z;
  user_content : string;
  tool_type : string;
  tool_name : string;
  system : string
}.

(** What a connection does to the outside world, oldest first:
    a request to the provider, or a frame written to the socket (the
    value handed to [json.dumps]). *)
Inductive event : Type :=
| ProviderCall (args : create_args)
| Sent (frame : json).

Definition trace : Type := list event.

(** A computation reads the events so far and yields its outcome with the
    events it adds.  Events emitted before a [raise] stay emitted. *)
Definition M (A : Type) : Type := trace -> outcome A * trace.

Definition ret {A} (a : A) : M A := fun _ => (Ok a, []).

Definition raise {A} (e : exn) : M A := fun _ => (Raised e, []).

Definition bind {A B} (c : M A) (k : A -> M B) : M B :=
  fun h =>
    match c h with
    | (Ok a, es) => let (r, es') := k a (h ++ es)%list in (r, (es ++ es')%list)
    | (Raised e, es) => (Raised e, es)
    end.

(** [try: body  except Exception as e: handler e]. *)
Definition try_except {A} (body : M A) (handler : exn -> M A) : M A :=
  fun h =>
    match body h with
    | (Ok a, es) => (Ok a, es)
    | (Raised e, es) => let (r, es') := handler e (h ++ es)%list in (r, (es ++ es')%list)
    end.

Definition lift {A} (o : outcome A) : M A := fun _ => (o, []).

Declare Scope py_scope.
Delimit Scope py_scope with py.
Notation "x <- c ;; k" := (bind c (fun x => k))
  (at level 61, c at next level, right associativity) : py_scope.
Notation "c ;;; k" := (bind c (fun _ => k))
  (at level 61, right associativity) : py_scope.
Local Open Scope py_scope.

(** [await websocket.send(json.dumps(response))]. *)
Definition websocket_send (response : json) : M unit :=
  fun _ => (Ok tt, [Sent response]).

(** The frames a run of events wrote to the socket, and the requests it
    made to the provider. *)
Definition responses (es : trace) : list json :=
  flat_map (fun ev => match ev with Sent r => [r] | ProviderCall _ => [] end) es.

Definition provider_calls (es : trace) : list create_args :=
  flat_map (fun ev => match ev with ProviderCall a => [a] | Sent _ => [] end) es.

(** [v.get(key, default)]: a method of [dict] alone. *)
Definition py_get (v : json) (key : string) (default : json) : outcome json :=
  match v with
  | JObject fields =>
      Ok (dict_get_default key default fields)
  | _ => Raised (Exception ("'" ++ type_name v ++ "' object has no attribute 'get'"))
  end.

(** [v[key]] for a [str] key: [KeyError] shows the [repr] of the key, and
    only a dict can be indexed by a [str]. *)
Definition py_subscript (str_repr : string -> string) (v : json) (key : string)
  : outcome json :=
  match v with
  | JObject fields =>
      match dict_get key fields with
      | Some x => Ok x
      | None => Raised (Exception (str_repr key))
      end
  | JString _ => Raised (Exception "string indices must be integers, not 'str'")
  | JArray _ => Raised (Exception "list indices must be integers or slices, not str")
  | _ => Raised (Exception ("'" ++ type_name v ++ "' object is not subscriptable"))
  end.

(** [key in v], evaluated by the server for a dict only. *)
Definition py_in (key : string) (v : json) : bool :=
  match v with JObject fields => dict_mem key fields | _ => false end.

(* ================================================================== *)
(** * Provider content blocks *)

(** [content_block.input] is a [str] or an already decoded object. *)
Inductive tool_input : Type :=
| InputStr (s : string)
| InputObj (v : json).

(** The attributes of a content block that the adapter reads. *)
Record content_block : Type := ContentBlock {
  block_type : string;
  block_text : string;
  block_name : string;
  block_input : tool_input
}.

(** ** Tool registry and tool results *)
Record Tool : Type := MkTool {
  name : string;
  description : string;
  inputSchema : json
}.

Record TextContent : Type := MkTextContent {
  type : string;
  text : string
}.

(** [tool.dict()]. *)
Definition Tool_dict (t : Tool) : json :=
  JObject [("name", JString (name t));
           ("description", JString (description t));
           ("inputSchema", inputSchema t)].

(* ================================================================== *)
(** * Reading a response, as a client does *)

(** A response envelope is well formed when it carries a [result] or an
    [error], and not both. *)
Definition exactly_one_of_result_error (response : json) : bool :=
  xorb (has_field "result" response) (has_field "error" response).

(** The [text] of each content block of a [tools/call] result. *)
Definition content_texts (response : json) : list json :=
  match field "content" (field "result" response) with
  | JArray items => map (field "text") items
  | _ => []
  end.

(** What the handler reads off a decoded request and off its [params]. *)
Definition method_of (fields : list (string * json)) : json :=
  dict_get_default "method" JNull fields.

Definition params_of (fields : list (string * json)) : json :=
  dict_get_default "params" (JObject []) fields.

Definition id_of (fields : list (string * json)) : json :=
  dict_get_default "id" JNull fields.

Definition name_of (params : list (string * json)) : json :=
  dict_get_default "name" JNull params.

Definition arguments_of (params : list (string * json)) : json :=
  dict_get_default "arguments" (JObject []) params.

(** The query a decoded request asks to search: the request is a
    [tools/call] of [smart_web_search] whose [params] and [arguments] are
    dicts and whose [arguments] hold the key ["query"]. *)
Definition search_call (fields : list (string * json)) : option json :=
  if eq_str (method_of fields) "tools/call" then
    match params_of fields with
    | JObject params =>
        if eq_str (name_of params) "smart_web_search" then
          match arguments_of params with
          | JObject arguments => dict_get "query" arguments
          | _ => None
          end
        else None
    | _ => None
    end
  else None.

(** An [error] member as the protocol has it: one of the two codes the
    server uses, and a message that is a [str]. *)
Definition is_error_object (error : json) : bool :=
  match field "code" error, field "message" error with
  | JInt code, JString _ => (code =? -32601)%Z || (code =? -32603)%Z
  | _, _ => false
  end.

(** An envelope with the protocol marker, an [id] member and, when it
    has an [error] member, a well-formed one. *)
Definition is_protocol_envelope (response : json) : bool :=
  eq_str (field "jsonrpc" response) "2.0"
  && has_field "id" response
  && (if has_field "error" response
      then is_error_object (field "error" response)
      else true).

(** The payloads of the text-kind blocks of a provider answer, in the
    order received (the specification's wording of what the adapter
    keeps). *)
Definition text_payloads (content : list content_block) : list string :=
  map block_text (filter (fun b => block_type b =? "text") content).

(** A provider answer without its tool-invocation blocks. *)
Definition without_tool_use (content : list content_block) : list content_block :=
  filter (fun b => negb (block_type b =? "tool_use")) content.

(* ================================================================== *)
(** * The test client

    [MCPWebSocketClient.send_request] of [test_mcp_client.py]: the
    request it hands to [json.dumps]. *)

(** Python's truth value of a decoded value, as [or] tests it. *)
Definition py_truthy (v : json) : bool :=
  match v with
  | JNull => false
  | JBool b => b
  | JInt z => negb (z =? 0)%Z
  | JFloat f => negb (PrimFloat.eqb f PrimFloat.zero)
  | JString s => negb (s =? "")
  | JArray items => match items with [] => false | _ :: _ => true end
  | JObject fields => match fields with [] => false | _ :: _ => true end
  end.

(** [None] stands for the default of the parameter [params]. *)
Definition send_request_envelope (method : string) (params : json) : json :=
  JObject [("jsonrpc", JString "2.0");
           ("method", JString method);
           ("params", if py_truthy params then params else JObject []);
           ("id", JInt 1)].

(* ================================================================== *)
(** * A concrete connection

    Frames, a decoder that is [json.loads] on these frames, and provider
    doubles, to run the server on. *)

Definition dq : string := String (ascii_of_nat 34) EmptyString.

Definition quoted (s : string) : string := dq ++ s ++ dq.

(** [repr] of a [str] without quotes, backslashes or control characters.
    No float occurs in the frames below. *)
Definition plain_str_repr (s : string) : string := "'" ++ s ++ "'".

Definition no_float_repr (f : float) : string := "nan".

(** [{"jsonrpc": "2.0", "method": "initialize", "id": 7}] *)
Definition initialize_frame : string :=
  "{" ++ quoted "jsonrpc" ++ ": " ++ quoted "2.0" ++ ", "
      ++ quoted "method" ++ ": " ++ quoted "initialize" ++ ", "
      ++ quoted "id" ++ ": 7}".

Definition initialize_request : json :=
  JObject [("jsonrpc", JString "2.0"); ("method", JString "initialize"); ("id", JInt 7)].

(** [{"jsonrpc": "2.0", "method": "tools/list"}], without an identifier. *)
Definition list_frame : string :=
  "{" ++ quoted "jsonrpc" ++ ": " ++ quoted "2.0" ++ ", "
      ++ quoted "method" ++ ": " ++ quoted "tools/list" ++ "}".

Definition list_request : json :=
  JObject [("jsonrpc", JString "2.0"); ("method", JString "tools/list")].

(** [{"jsonrpc": "2.0", "method": "tools/call", "params": {"name":
    "smart_web_search", "arguments": {"query": "What is MCP protocol?"}},
    "id": 1}], the call of [test_mcp_client.py]. *)
Definition search_frame : string :=
  "{" ++ quoted "jsonrpc" ++ ": " ++ quoted "2.0" ++ ", "
      ++ quoted "method" ++ ": " ++ quoted "tools/call" ++ ", "
      ++ quoted "params" ++ ": {" ++ quoted "name" ++ ": " ++ quoted "smart_web_search"
      ++ ", " ++ quoted "arguments" ++ ": {" ++ quoted "query" ++ ": "
      ++ quoted "What is MCP protocol?" ++ "}}, "
      ++ quoted "id" ++ ": 1}".

Definition search_arguments : list (string * json) :=
  [("query", JString "What is MCP protocol?")].

Definition search_params : list (string * json) :=
  [("name", JString "smart_web_search"); ("arguments", JObject search_arguments)].

Definition search_request_fields : list (string * json) :=
  [("jsonrpc", JString "2.0"); ("method", JString "tools/call");
   ("params", JObject search_params); ("id", JInt 1)].

(** [{"method": "tools/call", "params": {"name": "unknown_tool"}, "id": 2}] *)
Definition unknown_tool_frame : string :=
  "{" ++ quoted "method" ++ ": " ++ quoted "tools/call" ++ ", "
      ++ quoted "params" ++ ": {" ++ quoted "name" ++ ": " ++ quoted "unknown_tool" ++ "}, "
      ++ quoted "id" ++ ": 2}".

Definition unknown_tool_params : list (string * json) :=
  [("name", JString "unknown_tool")].

Definition unknown_tool_fields : list (string * json) :=
  [("method", JString "tools/call"); ("params", JObject unknown_tool_params);
   ("id", JInt 2)].

(** [{"method": "not/a/real/method", "id": "abc"}] *)
Definition unknown_method_frame : string :=
  "{" ++ quoted "method" ++ ": " ++ quoted "not/a/real/method" ++ ", "
      ++ quoted "id" ++ ": " ++ quoted "abc" ++ "}".

Definition unknown_method_fields : list (string * json) :=
  [("method", JString "not/a/real/method"); ("id", JString "abc")].

(** [{"method": "tools/call", "params": {"name": "smart_web_search",
    "arguments": {"q": "MCP"}}, "id": 3}], without the key ["query"]. *)
Definition no_query_frame : string :=
  "{" ++ quoted "method" ++ ": " ++ quoted "tools/call" ++ ", "
      ++ quoted "params" ++ ": {" ++ quoted "name" ++ ": " ++ quoted "smart_web_search"
      ++ ", " ++ quoted "arguments" ++ ": {" ++ quoted "q" ++ ": " ++ quoted "MCP"
      ++ "}}, " ++ quoted "id" ++ ": 3}".

Definition no_query_params : list (string * json) :=
  [("name", JString "smart_web_search"); ("arguments", JObject [("q", JString "MCP")])].

Definition no_query_fields : list (string * json) :=
  [("method", JString "tools/call"); ("params", JObject no_query_params);
   ("id", JInt 3)].

(** [{"id": 4}], a request without a method. *)
Definition no_method_frame : string := "{" ++ quoted "id" ++ ": 4}".

(** [[]], JSON that is not an object. *)
Definition array_frame : string := "[]".

(** A frame that is not JSON, and what [json.loads] says about it. *)
Definition garbage_frame : string := "not json".

Definition garbage_error : exn :=
  Exception "Expecting value: line 1 column 1 (char 0)".

Definition loads (message : string) : outcome json :=
  if message =? initialize_frame then Ok initialize_request
  else if message =? list_frame then Ok list_request
  else if message =? search_frame then Ok (JObject search_request_fields)
  else if message =? unknown_tool_frame then Ok (JObject unknown_tool_fields)
  else if message =? unknown_method_frame then Ok (JObject unknown_method_fields)
  else if message =? no_query_frame then Ok (JObject no_query_fields)
  else if message =? no_method_frame then Ok (JObject [("id", JInt 4)])
  else if message =? array_frame then Ok (JArray [])
  else Raised garbage_error.

(** [{"method": "tools/call", "params": [1], "id": 5}], whose [params]
    is a list. *)
Definition list_params_frame : string :=
  "{" ++ quoted "method" ++ ": " ++ quoted "tools/call" ++ ", "
      ++ quoted "params" ++ ": [1], " ++ quoted "id" ++ ": 5}".

Definition list_params_fields : list (string * json) :=
  [("method", JString "tools/call"); ("params", JArray [JInt 1]); ("id", JInt 5)].

(** [loads], and [json.loads] on the frame above as well. *)
Definition loads_more (message : string) : outcome json :=
  if message =? list_params_frame then Ok (JObject list_params_fields)
  else loads message.

(** A provider that answers with narrative text around the record of the
    sub-query it ran. *)
Definition answer : list content_block :=
  [ {| block_type := "text"; block_text := "MCP is the Model Context Protocol.";
       block_name := ""; block_input := InputStr "" |};
    {| block_type := "tool_use"; block_text := "";
       block_name := "web_search";
       block_input := InputObj (JObject [("query", JString "MCP protocol")]) |};
    {| block_type := "text"; block_text := "It connects models to tools.";
       block_name := ""; block_input := InputStr "" |} ].

Definition answering_provider (h : trace) (args : create_args)
  : outcome (list content_block) := Ok answer.

(** A provider whose answer tells whether it was asked before on this
    connection. *)
Definition recalling_provider (h : trace) (args : create_args)
  : outcome (list content_block) :=
  Ok [ {| block_type := "text";
          block_text :=
            match provider_calls h with
            | [] => "first answer"
            | _ :: _ => "later answer"
            end;
          block_name := ""; block_input := InputStr "" |} ].

(** A provider that cannot be reached. *)
Definition provider_error : exn := Exception "Connection error.".

Definition failing_provider (h : trace) (args : create_args)
  : outcome (list content_block) := Raised provider_error.

(** A replacement for the adapter itself that raises. *)
Definition raising_adapter (query : json) : M string :=
  raise (Exception "adapter down").

(* ================================================================== *)
(** * The server *)

Section Server.
(** The interpreter's [repr] of floats and strings. *)
Variable float_repr : float -> string.
Variable str_repr : string -> string.
(** [json.loads]: a decoded value, or a raised [JSONDecodeError]. *)
Variable json_loads : string -> outcome json.
(** [client.messages.create]: what the provider answers to a request,
    given everything the connection did before. *)
Variable client_messages_create : trace -> create_args -> outcome (list content_block).

(** [str(v)] with the interpreter's [repr]s. *)
Definition str (v : json) : string := py_str float_repr str_repr v.

(** ** Search provider adapter *)

Definition search_request (query : json) : create_args :=
  {| model := "claude-3-7-sonnet-latest";
     max_tokens := 4000;
     user_content :=
       "Please search for the following content and provide detailed search results: "
         ++ str query;
     tool_type := "web_search_20250305";
     tool_name := "web_search";
     system := "Use the web_search tool to search for information and return detailed search results. Ensure it includes the latest information." |}.

Definition messages_create (args : create_args) : M (list content_block) :=
  fun h => (client_messages_create h args, [ProviderCall args]).

(** One turn of the loop over [response.content].  The [tool_use]
    branch only logs the sub-query, inside a [try] of its own. *)
Definition extract_block (search_results : list string) (content_block : content_block)
  : list string :=
  if block_type content_block =? "text" then
    (search_results ++ [block_text content_block])%list
  else if (block_type content_block =? "tool_use")
          && (block_name content_block =? "web_search") then
    search_results
  else
    search_results.

Definition extract_results (content : list content_block) : string :=
  let search_results := fold_left extract_block content [] in
  match search_results with
  | [] => "No related search results found."
  | _ :: _ => join nl search_results
  end.

Definition search_with_claude (query : json) : M string :=
  try_except
    (response <- messages_create (search_request query) ;;
     ret (extract_results response))
    (fun e => ret ("Search failed: " ++ exn_str e)).

(** ** Tool registry *)

Definition list_tools : M (list Tool) :=
  ret [ {| name := "smart_web_search";
           description :=
             "Searches the web and provides concise, insight-rich summaries from live data.";
           inputSchema :=
             JObject
               [("type", JString "object");
                ("properties",
                  JObject
                    [("query",
                       JObject
                         [("type", JString "string");
                          ("description",
                            JString "The content to search, can be any question or topic")])]);
                ("required", JArray [JString "query"])] |} ].

(** A message the handler can answer: it fails to decode, or it decodes
    to a dict. *)
Definition answerable (message : string) : bool :=
  match json_loads message with
  | Ok decoded => is_dict decoded
  | Raised _ => true
  end.

(** ** Dispatcher and connection handler

    [call_tool] and [handle_websocket] reach the adapter through the
    module-level name [search_with_claude], looked up at each call:
    [adapter] is whatever that name is bound to. *)
Section Handler.
Variable adapter : json -> M string.

Definition call_tool (name arguments : json) : M (list TextContent) :=
  if negb (eq_str name "smart_web_search") then
    let error_msg := "Unknown tool: " ++ str name in
    ret [ {| type := "text"; text := error_msg |} ]
  else if negb (is_dict arguments) || negb (py_in "query" arguments) then
    let error_msg := "Invalid arguments for smart_web_search: " ++ str arguments in
    ret [ {| type := "text"; text := error_msg |} ]
  else
    query <- lift (py_subscript str_repr arguments "query") ;;
    result <- adapter query ;;
    ret [ {| type := "text"; text := result |} ].

Definition result_response (result request_id : json) : json :=
  JObject [("jsonrpc", JString "2.0"); ("result", result); ("id", request_id)].

Definition error_response (code : Z) (message : string) (request_id : json) : json :=
  JObject [("jsonrpc", JString "2.0");
           ("error", JObject [("code", JInt code); ("message", JString message)]);
           ("id", request_id)].

Definition initialize_result : json :=
  JObject [("protocolVersion", JString "1.0.0");
           ("serverInfo",
             JObject [("name", JString "smart_web_search-mcp");
                      ("version", JString "1.0.0")]);
           ("capabilities",
             JObject [("tools", JObject []); ("streaming", JBool true)])].

Definition content_dict (result : TextContent) : json :=
  JObject [("type", JString "text"); ("text", JString (text result))].

(** The body of the [try], from the line after [json.loads]. *)
Definition try_body (request : json) : M unit :=
  method <- lift (py_get request "method" JNull) ;;
  params <- lift (py_get request "params" (JObject [])) ;;
  request_id <- lift (py_get request "id" JNull) ;;
  response <-
    (if eq_str method "initialize" then
       ret (result_response initialize_result request_id)
     else if eq_str method "tools/list" then
       tools <- list_tools ;;
       ret (result_response (JObject [("tools", JArray (map Tool_dict tools))])
                            request_id)
     else if eq_str method "tools/call" then
       tool_name <- lift (py_get params "name" JNull) ;;
       arguments <- lift (py_get params "arguments" (JObject [])) ;;
       results <- call_tool tool_name arguments ;;
       ret (result_response
              (JObject [("content", JArray (map content_dict results))])
              request_id)
     else
       ret (error_response (-32601) ("Method not found: " ++ str method) request_id)) ;;
  websocket_send response.

(** The result envelope of a [tools/call] that returned one text block. *)
Definition text_response (text : string) (request_id : json) : json :=
  result_response
    (JObject [("content",
               JArray [JObject [("type", JString "text"); ("text", JString text)]])])
    request_id.

(** The [except Exception as e] clause.  [request] is the local
    variable of that name: [None] while it is unbound, otherwise the
    value last assigned to it. *)
Definition except_clause (request : option json) (e : exn) : M unit :=
  request_id <-
    match request with
    | Some r => lift (py_get r "id" JNull)
    | None => ret JNull
    end ;;
  websocket_send (error_response (-32603) (exn_str e) request_id).

(** One turn of [async for message in websocket]; the result is the
    binding of [request] after the turn. *)
Definition handle_message (request : option json) (message : string)
  : M (option json) :=
  match json_loads message with
  | Raised e => except_clause request e ;;; ret request
  | Ok decoded =>
      try_except (try_body decoded) (except_clause (Some decoded)) ;;;
      ret (Some decoded)
  end.

Fixpoint handle_messages (request : option json) (messages : list string)
  : M unit :=
  match messages with
  | [] => ret tt
  | message :: rest =>
      request' <- handle_message request message ;;
      handle_messages request' rest
  end.

(** The handler on the messages the socket delivers before it closes;
    [request] starts unbound. *)
Definition handle_websocket (messages : list string) : M unit :=
  handle_messages None messages.

(* ------------------------------------------------------------------ *)
(** ** Running computations *)

Lemma bind_ret {A B} (a : A) (k : A -> M B) (h : trace) :
  bind (ret a) k h = k a h.
Proof.
  unfold bind, ret. rewrite app_nil_r. destruct (k a h). reflexivity.
Qed.

Lemma bind_lift_ok {A B} (a : A) (k : A -> M B) (h : trace) :
  bind (lift (Ok a)) k h = k a h.
Proof. exact (bind_ret a k h). Qed.

Lemma bind_lift_raised {A B} (e : exn) (k : A -> M B) (h : trace) :
  bind (lift (Raised e)) k h = (Raised e, []).
Proof. reflexivity. Qed.

Lemma bind_ok {A B} (c : M A) (k : A -> M B) (h : trace) (a : A) (es : trace) :
  c h = (Ok a, es) ->
  bind c k h = (fst (k a (h ++ es)%list), (es ++ snd (k a (h ++ es)%list))%list).
Proof.
  intros Hc. unfold bind. rewrite Hc. destruct (k a (h ++ es)%list). reflexivity.
Qed.

Lemma bind_raised {A B} (c : M A) (k : A -> M B) (h : trace) (e : exn) (es : trace) :
  c h = (Raised e, es) -> bind c k h = (Raised e, es).
Proof. intros Hc. unfold bind. rewrite Hc. reflexivity. Qed.

Lemma bind_assoc {A B C} (c : M A) (k : A -> M B) (k' : B -> M C) (h : trace) :
  bind (bind c k) k' h = bind c (fun a => bind (k a) k') h.
Proof.
  unfold bind. destruct (c h) as [[a|e] es]; [|reflexivity].
  destruct (k a (h ++ es)%list) as [[b|e] es']; [|reflexivity].
  rewrite <- app_assoc. destruct (k' b (h ++ es ++ es')%list) as [r es''].
  rewrite app_assoc. reflexivity.
Qed.

Lemma try_except_ok {A} (body : M A) (handler : exn -> M A) (h : trace)
  (a : A) (es : trace) :
  body h = (Ok a, es) -> try_except body handler h = (Ok a, es).
Proof. intros Hb. unfold try_except. rewrite Hb. reflexivity. Qed.

Lemma try_except_raised {A} (body : M A) (handler : exn -> M A) (h : trace)
  (e : exn) (es : trace) :
  body h = (Raised e, es) ->
  try_except body handler h =
    (fst (handler e (h ++ es)%list), (es ++ snd (handler e (h ++ es)%list))%list).
Proof.
  intros Hb. unfold try_except. rewrite Hb.
  destruct (handler e (h ++ es)%list). reflexivity.
Qed.

Lemma responses_app (es es' : trace) :
  responses (es ++ es')%list = (responses es ++ responses es')%list.
Proof. unfold responses. apply flat_map_app. Qed.

Lemma provider_calls_app (es es' : trace) :
  provider_calls (es ++ es')%list = (provider_calls es ++ provider_calls es')%list.
Proof. unfold provider_calls. apply flat_map_app. Qed.

(** Only a [str] with the same characters equals a string literal. *)
Lemma eq_str_true (v : json) (s : string) :
  eq_str v s = true -> v = JString s.
Proof.
  destruct v; cbn; try discriminate.
  intros H. apply String.eqb_eq in H. now subst.
Qed.

Lemma py_get_dict (fields : list (string * json)) (key : string) (default : json) :
  py_get (JObject fields) key default = Ok (dict_get_default key default fields).
Proof. reflexivity. Qed.

Ltac mstep :=
  repeat first
    [ rewrite py_get_dict
    | rewrite bind_assoc
    | rewrite bind_lift_ok
    | rewrite bind_ret
    | rewrite bind_lift_raised ];
  cbv beta.

(* ------------------------------------------------------------------ *)
(** ** The body of the [try], method by method *)

Lemma try_body_not_dict (request : json) (h : trace) :
  is_dict request = false ->
  try_body request h =
    (Raised (Exception ("'" ++ type_name request ++ "' object has no attribute 'get'")),
     []).
Proof.
  intros Hd. unfold try_body.
  destruct request; try discriminate; reflexivity.
Qed.

Lemma try_body_initialize (fields : list (string * json)) (h : trace) :
  eq_str (method_of fields) "initialize" = true ->
  try_body (JObject fields) h =
    (Ok tt, [Sent (result_response initialize_result (id_of fields))]).
Proof.
  intros Hm. unfold try_body. mstep.
  fold (method_of fields) (id_of fields). rewrite Hm. mstep.
  reflexivity.
Qed.

Lemma try_body_tools_list (fields : list (string * json)) (h : trace) :
  eq_str (method_of fields) "tools/list" = true ->
  exists tools,
    try_body (JObject fields) h =
      (Ok tt, [Sent (result_response (JObject [("tools", JArray tools)]) (id_of fields))]).
Proof.
  intros Hm. apply eq_str_true in Hm.
  unfold try_body. mstep.
  fold (method_of fields) (id_of fields). rewrite Hm. cbn [eq_str String.eqb Ascii.eqb Bool.eqb].
  unfold list_tools. mstep. eexists. reflexivity.
Qed.

Lemma try_body_unknown_method (fields : list (string * json)) (h : trace) :
  eq_str (method_of fields) "initialize" = false ->
  eq_str (method_of fields) "tools/list" = false ->
  eq_str (method_of fields) "tools/call" = false ->
  try_body (JObject fields) h =
    (Ok tt,
     [Sent (error_response (-32601) ("Method not found: " ++ str (method_of fields))
                           (id_of fields))]).
Proof.
  intros Hi Hl Hc. unfold try_body. mstep.
  fold (method_of fields) (id_of fields). rewrite Hi, Hl, Hc. mstep.
  reflexivity.
Qed.

Lemma try_body_tools_call_params_not_dict (fields : list (string * json)) (h : trace) :
  eq_str (method_of fields) "tools/call" = true ->
  is_dict (params_of fields) = false ->
  try_body (JObject fields) h =
    (Raised (Exception ("'" ++ type_name (params_of fields)
                            ++ "' object has no attribute 'get'")), []).
Proof.
  intros Hm Hp. apply eq_str_true in Hm.
  unfold try_body. mstep.
  fold (method_of fields) (id_of fields) (params_of fields). rewrite Hm.
  cbn [eq_str String.eqb Ascii.eqb Bool.eqb].
  destruct (params_of fields); try discriminate; reflexivity.
Qed.

Lemma try_body_tools_call (fields params : list (string * json)) (h : trace) :
  eq_str (method_of fields) "tools/call" = true ->
  params_of fields = JObject params ->
  try_body (JObject fields) h =
    match call_tool (name_of params) (arguments_of params) h with
    | (Ok results, es) =>
        (Ok tt,
         (es ++ [Sent (result_response
                         (JObject [("content", JArray (map content_dict results))])
                         (id_of fields))])%list)
    | (Raised e, es) => (Raised e, es)
    end.
Proof.
  intros Hm Hp. apply eq_str_true in Hm.
  unfold try_body. mstep.
  fold (method_of fields) (id_of fields) (params_of fields). rewrite Hm, Hp.
  cbn [eq_str String.eqb Ascii.eqb Bool.eqb]. mstep.
  fold (name_of params) (arguments_of params).
  destruct (call_tool (name_of params) (arguments_of params) h) as [[results|e] es] eqn:Hc.
  - erewrite bind_ok by exact Hc. mstep. reflexivity.
  - erewrite bind_raised; [reflexivity | exact Hc].
Qed.


(* ------------------------------------------------------------------ *)
(** ** [call_tool], branch by branch *)

Lemma call_tool_unknown (name arguments : json) (h : trace) :
  eq_str name "smart_web_search" = false ->
  call_tool name arguments h =
    (Ok [ {| type := "text"; text := "Unknown tool: " ++ str name |} ], []).
Proof. intros Hn. unfold call_tool. rewrite Hn. reflexivity. Qed.

Lemma call_tool_invalid (name arguments : json) (h : trace) :
  eq_str name "smart_web_search" = true ->
  is_dict arguments = false \/ py_in "query" arguments = false ->
  call_tool name arguments h =
    (Ok [ {| type := "text";
             text := "Invalid arguments for smart_web_search: " ++ str arguments |} ],
     []).
Proof.
  intros Hn Ha. unfold call_tool. rewrite Hn. cbn [negb].
  destruct Ha as [Ha|Ha]; rewrite Ha; cbn [negb orb].
  - reflexivity.
  - rewrite orb_true_r. reflexivity.
Qed.

Lemma call_tool_search (name : json) (fields : list (string * json)) (query : json)
  (h : trace) :
  eq_str name "smart_web_search" = true ->
  dict_get "query" fields = Some query ->
  call_tool name (JObject fields) h =
    (result <- adapter query ;; ret [ {| type := "text"; text := result |} ]) h.
Proof.
  intros Hn Hq. unfold call_tool. rewrite Hn.
  cbn [negb is_dict py_in orb py_subscript]. unfold dict_mem. rewrite Hq.
  cbn [negb]. mstep. reflexivity.
Qed.

(** Every branch of [call_tool] either leaves the adapter alone or runs it
    once, on some query, and adds nothing of its own. *)
Lemma call_tool_events (name arguments : json) (h : trace) :
  snd (call_tool name arguments h) = []
  \/ exists query, snd (call_tool name arguments h) = snd (adapter query h).
Proof.
  destruct (eq_str name "smart_web_search") eqn:Hn.
  2:{ left. now rewrite call_tool_unknown. }
  destruct arguments as [| | | | | |fields];
    try (left; rewrite call_tool_invalid; [reflexivity|assumption|now left]).
  destruct (dict_get "query" fields) as [query|] eqn:Hq.
  - right. exists query. rewrite (call_tool_search _ _ _ _ Hn Hq).
    unfold bind, ret. destruct (adapter query h) as [[r|e] es]; cbn.
    + now rewrite app_nil_r.
    + reflexivity.
  - left. rewrite call_tool_invalid; [reflexivity|assumption|].
    right. cbn. unfold dict_mem. now rewrite Hq.
Qed.

(* ------------------------------------------------------------------ *)
(** ** One turn of the loop *)

Lemma handle_message_malformed_unbound (message : string) (e : exn) (h : trace) :
  json_loads message = Raised e ->
  handle_message None message h =
    (Ok None, [Sent (error_response (-32603) (exn_str e) JNull)]).
Proof.
  intros Hd. unfold handle_message. rewrite Hd.
  unfold except_clause. mstep. reflexivity.
Qed.

(** After a request was decoded, [request] is still bound to it when a
    later message fails to decode. *)
Lemma handle_message_malformed_bound
  (fields : list (string * json)) (message : string) (e : exn) (h : trace) :
  json_loads message = Raised e ->
  handle_message (Some (JObject fields)) message h =
    (Ok (Some (JObject fields)),
     [Sent (error_response (-32603) (exn_str e) (id_of fields))]).
Proof.
  intros Hd. unfold handle_message. rewrite Hd.
  unfold except_clause. mstep. reflexivity.
Qed.

(** A decoded value that is not a dict raises in the [try] and again in
    the [except] clause: nothing is sent and the handler ends. *)
Lemma handle_message_not_dict
  (request : option json) (message : string) (decoded : json) (h : trace) :
  json_loads message = Ok decoded ->
  is_dict decoded = false ->
  handle_message request message h =
    (Raised (Exception ("'" ++ type_name decoded ++ "' object has no attribute 'get'")),
     []).
Proof.
  intros Hd Hn. unfold handle_message. rewrite Hd.
  erewrite bind_raised; [reflexivity|].
  erewrite try_except_raised by (apply try_body_not_dict; exact Hn).
  unfold except_clause. destruct decoded; try discriminate; reflexivity.
Qed.

Lemma handle_message_malformed_bound_not_dict
  (bound : json) (message : string) (e : exn) (h : trace) :
  json_loads message = Raised e ->
  is_dict bound = false ->
  handle_message (Some bound) message h =
    (Raised (Exception ("'" ++ type_name bound ++ "' object has no attribute 'get'")),
     []).
Proof.
  intros Hd Hn. unfold handle_message. rewrite Hd.
  unfold except_clause. destruct bound; try discriminate; reflexivity.
Qed.

Lemma handle_message_sent
  (request : option json) (message : string) (decoded : json) (h es : trace) :
  json_loads message = Ok decoded ->
  try_body decoded h = (Ok tt, es) ->
  handle_message request message h = (Ok (Some decoded), es).
Proof.
  intros Hd Hb. unfold handle_message. rewrite Hd.
  erewrite bind_ok by (eapply try_except_ok; exact Hb).
  unfold ret. cbn. now rewrite app_nil_r.
Qed.

Lemma handle_message_caught
  (request : option json) (message : string) (fields : list (string * json))
  (h es : trace) (e : exn) :
  json_loads message = Ok (JObject fields) ->
  try_body (JObject fields) h = (Raised e, es) ->
  handle_message request message h =
    (Ok (Some (JObject fields)),
     (es ++ [Sent (error_response (-32603) (exn_str e) (id_of fields))])%list).
Proof.
  intros Hd Hb. unfold handle_message. rewrite Hd.
  erewrite bind_ok.
  2:{ erewrite try_except_raised by exact Hb.
      unfold except_clause. mstep. unfold websocket_send. cbn [fst snd].
      reflexivity. }
  unfold ret. cbn. now rewrite app_nil_r.
Qed.

(** A decoded request that is a dict is always answered, by exactly one
    envelope that the handler sends last, with the request's identifier. *)
Lemma handle_message_dict
  (request : option json) (message : string) (fields : list (string * json))
  (h : trace) :
  json_loads message = Ok (JObject fields) ->
  exists es payload,
    handle_message request message h =
      (Ok (Some (JObject fields)),
       (es ++ [Sent (JObject [("jsonrpc", JString "2.0"); payload;
                              ("id", id_of fields)])])%list)
    /\ (fst payload = "result" \/ fst payload = "error")
    /\ (es = [] \/ exists query, es = snd (adapter query h)).
Proof.
  intros Hd.
  destruct (eq_str (method_of fields) "initialize") eqn:Hi.
  { exists [], ("result", initialize_result). split; [|now auto].
    apply handle_message_sent; [assumption|]. now apply try_body_initialize. }
  destruct (eq_str (method_of fields) "tools/list") eqn:Hl.
  { destruct (try_body_tools_list fields h Hl) as [tools Ht].
    exists [], ("result", JObject [("tools", JArray tools)]). split; [|now auto].
    now apply handle_message_sent. }
  destruct (eq_str (method_of fields) "tools/call") eqn:Hc.
  2:{ exists [], ("error",
                  JObject [("code", JInt (-32601));
                           ("message",
                             JString ("Method not found: " ++ str (method_of fields)))]).
      split; [|now auto].
      apply handle_message_sent; [assumption|]. now apply try_body_unknown_method. }
  destruct (params_of fields) as [| | | | | |params] eqn:Hp;
    try (eexists [], ("error", _); split; [|now auto];
         eapply handle_message_caught; [exact Hd|];
         rewrite try_body_tools_call_params_not_dict;
         [reflexivity | assumption | now rewrite Hp]).
  pose proof (try_body_tools_call fields params h Hc Hp) as Hb.
  pose proof (call_tool_events (name_of params) (arguments_of params) h) as Hev.
  destruct (call_tool (name_of params) (arguments_of params) h) as [[results|e] es].
  - exists es, ("result", JObject [("content", JArray (map content_dict results))]).
    split; [|split; [now left | exact Hev]].
    now apply handle_message_sent.
  - eexists es, ("error", _).
    split; [|split; [now right | exact Hev]].
    eapply handle_message_caught; [exact Hd | exact Hb].
Qed.

(** When the adapter's replacement raises, [call_tool] lets the exception
    through and the handler's [except] clause answers with a protocol
    error. *)
Lemma adapter_exception_is_internal_error
  (request : option json) (message : string)
  (fields params arguments : list (string * json)) (query : json)
  (h es : trace) (e : exn) :
  json_loads message = Ok (JObject fields) ->
  eq_str (method_of fields) "tools/call" = true ->
  params_of fields = JObject params ->
  eq_str (name_of params) "smart_web_search" = true ->
  arguments_of params = JObject arguments ->
  dict_get "query" arguments = Some query ->
  adapter query h = (Raised e, es) ->
  handle_message request message h =
    (Ok (Some (JObject fields)),
     (es ++ [Sent (error_response (-32603) (exn_str e) (id_of fields))])%list).
Proof.
  intros Hd Hm Hp Hn Ha Hq Hr.
  eapply handle_message_caught; [exact Hd|].
  rewrite (try_body_tools_call fields params h Hm Hp), Ha.
  rewrite (call_tool_search _ _ _ _ Hn Hq).
  erewrite bind_raised by exact Hr. reflexivity.
Qed.

(** The loop goes on after a message that fails to decode, as long as
    [request] is unbound or bound to a dict. *)
Lemma handle_messages_after_malformed
  (request : option json) (message : string) (rest : list string) (e : exn)
  (h : trace) :
  json_loads message = Raised e ->
  request = None \/ (exists fields, request = Some (JObject fields)) ->
  exists error,
    handle_message request message h = (Ok request, [Sent error])
    /\ field "code" (field "error" error) = JInt (-32603)
    /\ handle_messages request (message :: rest) h =
         (fst (handle_messages request rest (h ++ [Sent error])%list),
          Sent error :: snd (handle_messages request rest (h ++ [Sent error])%list)).
Proof.
  intros Hd [Hr|[fields Hr]]; subst request.
  - eexists. split; [apply handle_message_malformed_unbound; exact Hd|].
    split; [reflexivity|].
    cbn [handle_messages]. erewrite bind_ok.
    2:{ apply handle_message_malformed_unbound; exact Hd. }
    reflexivity.
  - eexists. split; [apply handle_message_malformed_bound; exact Hd|].
    split; [reflexivity|].
    cbn [handle_messages]. erewrite bind_ok.
    2:{ apply handle_message_malformed_bound; exact Hd. }
    reflexivity.
Qed.

(* ------------------------------------------------------------------ *)
(** ** Claims that hold whatever the adapter is bound to *)

(** C5. A [tools/call] whose tool name is not [smart_web_search] makes
    [call_tool] return, without raising, a single text block whose text is
    ["Unknown tool: "] followed by the supplied name, and the handler
    sends it in a result envelope, not in a protocol error. *)
Theorem C5_unknown_tool_is_reported_as_content
  (request : option json) (message : string) (fields params : list (string * json))
  (h : trace) :
  json_loads message = Ok (JObject fields) ->
  eq_str (method_of fields) "tools/call" = true ->
  params_of fields = JObject params ->
  eq_str (name_of params) "smart_web_search" = false ->
  call_tool (name_of params) (arguments_of params) h =
    (Ok [ {| type := "text"; text := "Unknown tool: " ++ str (name_of params) |} ], [])
  /\ handle_message request message h =
       (Ok (Some (JObject fields)),
        [Sent (result_response
                 (JObject
                    [("content",
                       JArray
                         [JObject
                            [("type", JString "text");
                             ("text",
                               JString ("Unknown tool: " ++ str (name_of params)))]])])
                 (id_of fields))]).
Proof.
  intros Hd Hm Hp Hn.
  pose proof (call_tool_unknown (name_of params) (arguments_of params) h Hn) as Hc.
  split; [exact Hc|].
  apply handle_message_sent; [assumption|].
  rewrite (try_body_tools_call fields params h Hm Hp), Hc. reflexivity.
Qed.

(** C6. A [tools/call] naming [smart_web_search] whose [arguments] is not
    a dict, or is a dict without the key ["query"], makes [call_tool]
    return a single text block describing the invalid arguments; the
    handler sends it in a result envelope, and neither the adapter nor the
    provider is called. *)
Theorem C6_invalid_arguments_are_reported_as_content
  (request : option json) (message : string) (fields params : list (string * json))
  (h : trace) :
  json_loads message = Ok (JObject fields) ->
  eq_str (method_of fields) "tools/call" = true ->
  params_of fields = JObject params ->
  eq_str (name_of params) "smart_web_search" = true ->
  is_dict (arguments_of params) = false
    \/ py_in "query" (arguments_of params) = false ->
  call_tool (name_of params) (arguments_of params) h =
    (Ok [ {| type := "text";
             text := "Invalid arguments for smart_web_search: "
                       ++ str (arguments_of params) |} ], [])
  /\ handle_message request message h =
       (Ok (Some (JObject fields)),
        [Sent (result_response
                 (JObject
                    [("content",
                       JArray
                         [JObject
                            [("type", JString "text");
                             ("text",
                               JString ("Invalid arguments for smart_web_search: "
                                          ++ str (arguments_of params)))]])])
                 (id_of fields))])
  /\ provider_calls (snd (handle_message request message h)) = [].
Proof.
  intros Hd Hm Hp Hn Ha.
  pose proof (call_tool_invalid (name_of params) (arguments_of params) h Hn Ha) as Hc.
  assert (Hh : handle_message request message h =
                 (Ok (Some (JObject fields)),
                  [Sent (result_response
                           (JObject
                              [("content",
                                 JArray
                                   [JObject
                                      [("type", JString "text");
                                       ("text",
                                         JString ("Invalid arguments for smart_web_search: "
                                                    ++ str (arguments_of params)))]])])
                           (id_of fields))])).
  { apply handle_message_sent; [assumption|].
    rewrite (try_body_tools_call fields params h Hm Hp), Hc. reflexivity. }
  split; [exact Hc|]. split; [exact Hh|]. rewrite Hh. reflexivity.
Qed.

(** C7. A decoded request whose method is none of [initialize],
    [tools/list] and [tools/call] (an absent method reads as [None]) is
    answered by a protocol error with code -32601, whose message is
    ["Method not found: "] followed by the method, and which carries the
    request's identifier. *)
Theorem C7_unknown_method_is_protocol_error
  (request : option json) (message : string) (fields : list (string * json))
  (h : trace) :
  json_loads message = Ok (JObject fields) ->
  eq_str (method_of fields) "initialize" = false ->
  eq_str (method_of fields) "tools/list" = false ->
  eq_str (method_of fields) "tools/call" = false ->
  handle_message request message h =
    (Ok (Some (JObject fields)),
     [Sent (JObject
              [("jsonrpc", JString "2.0");
               ("error",
                 JObject
                   [("code", JInt (-32601));
                    ("message",
                      JString ("Method not found: " ++ str (method_of fields)))]);
               ("id", id_of fields)])]).
Proof.
  intros Hd Hi Hl Hc.
  apply handle_message_sent; [assumption|].
  now apply try_body_unknown_method.
Qed.

(* ------------------------------------------------------------------ *)
(** ** Further properties that hold whatever the adapter is bound to *)

Lemma handle_message_tools_call_result
  (request : option json) (message : string) (fields params : list (string * json))
  (h : trace) (results : list TextContent) (es : trace) :
  json_loads message = Ok (JObject fields) ->
  eq_str (method_of fields) "tools/call" = true ->
  params_of fields = JObject params ->
  call_tool (name_of params) (arguments_of params) h = (Ok results, es) ->
  handle_message request message h =
    (Ok (Some (JObject fields)),
     (es ++ [Sent (result_response
                     (JObject [("content", JArray (map content_dict results))])
                     (id_of fields))])%list).
Proof.
  intros Hd Hm Hp Hc. apply handle_message_sent; [assumption|].
  now rewrite (try_body_tools_call fields params h Hm Hp), Hc.
Qed.

(** What [search_call] reads off a request. *)
Lemma search_call_some (fields : list (string * json)) (query : json) :
  search_call fields = Some query ->
  eq_str (method_of fields) "tools/call" = true
  /\ exists params arguments,
       params_of fields = JObject params
       /\ eq_str (name_of params) "smart_web_search" = true
       /\ arguments_of params = JObject arguments
       /\ dict_get "query" arguments = Some query.
Proof.
  unfold search_call. intros H.
  destruct (eq_str (method_of fields) "tools/call"); [|discriminate].
  split; [reflexivity|].
  destruct (params_of fields) as [| | | | | |params]; try discriminate.
  destruct (eq_str (name_of params) "smart_web_search") eqn:Hn; [|discriminate].
  destruct (arguments_of params) as [| | | | | |arguments] eqn:Ha; try discriminate.
  exists params, arguments. repeat split; assumption.
Qed.

(** A request that is not a search call never reaches the adapter:
    [call_tool] answers by itself. *)
Lemma call_tool_without_search
  (fields params : list (string * json)) (h : trace) :
  eq_str (method_of fields) "tools/call" = true ->
  params_of fields = JObject params ->
  search_call fields = None ->
  exists text,
    call_tool (name_of params) (arguments_of params) h =
      (Ok [ {| type := "text"; text := text |} ], []).
Proof.
  intros Hm Hp Hs. unfold search_call in Hs. rewrite Hm, Hp in Hs.
  destruct (eq_str (name_of params) "smart_web_search") eqn:Hn.
  2:{ eexists. now apply call_tool_unknown. }
  eexists. apply call_tool_invalid; [assumption|].
  destruct (arguments_of params) as [| | | | | |arguments];
    try (left; reflexivity).
  right. cbn. unfold dict_mem. now rewrite Hs.
Qed.

(** X1. A frame that decodes to anything but a dict ends the handler:
    [request.get] raises in the [try] and again in the [except] clause,
    so nothing is sent for it and the messages after it are never read. *)
Theorem not_a_dict_ends_the_connection
  (request : option json) (message : string) (decoded : json) (rest : list string)
  (h : trace) :
  json_loads message = Ok decoded ->
  is_dict decoded = false ->
  handle_messages request (message :: rest) h =
    (Raised (Exception ("'" ++ type_name decoded ++ "' object has no attribute 'get'")),
     []).
Proof.
  intros Hd Hn. cbn [handle_messages].
  erewrite bind_raised; [reflexivity|].
  now apply handle_message_not_dict.
Qed.

(** X2. A [tools/call] whose [params] is not a dict is answered by the
    protocol error -32603 carrying the [AttributeError] of [params.get]
    and the request's identifier; neither [call_tool] nor the adapter
    runs. *)
Theorem non_dict_params_is_internal_error
  (request : option json) (message : string) (fields : list (string * json))
  (h : trace) :
  json_loads message = Ok (JObject fields) ->
  eq_str (method_of fields) "tools/call" = true ->
  is_dict (params_of fields) = false ->
  handle_message request message h =
    (Ok (Some (JObject fields)),
     [Sent (error_response (-32603)
              ("'" ++ type_name (params_of fields) ++ "' object has no attribute 'get'")
              (id_of fields))]).
Proof.
  intros Hd Hm Hp.
  rewrite (handle_message_caught request message fields h [] _ Hd
             (try_body_tools_call_params_not_dict fields h Hm Hp)).
  reflexivity.
Qed.

(** X3. [initialize] is answered by the fixed capability document and the
    request's identifier, whatever [params] holds (a dict or not), what
    the connection did before, and what the adapter is. *)
Theorem initialize_ignores_params_and_history
  (request : option json) (message : string) (fields : list (string * json))
  (h : trace) :
  json_loads message = Ok (JObject fields) ->
  eq_str (method_of fields) "initialize" = true ->
  handle_message request message h =
    (Ok (Some (JObject fields)),
     [Sent (result_response initialize_result (id_of fields))])
  /\ field "protocolVersion" initialize_result = JString "1.0.0"
  /\ field "capabilities" initialize_result =
       JObject [("tools", JObject []); ("streaming", JBool true)].
Proof.
  intros Hd Hm. split; [|split; reflexivity].
  apply handle_message_sent; [assumption|]. now apply try_body_initialize.
Qed.

(** X4. [tools/list] is answered by a result with exactly one tool,
    named [smart_web_search], whose schema requires the key ["query"]
    and declares it a string; [params] is not looked at. *)
Theorem tools_list_advertises_one_tool
  (request : option json) (message : string) (fields : list (string * json))
  (h : trace) :
  json_loads message = Ok (JObject fields) ->
  eq_str (method_of fields) "tools/list" = true ->
  exists tool,
    handle_message request message h =
      (Ok (Some (JObject fields)),
       [Sent (result_response (JObject [("tools", JArray [tool])]) (id_of fields))])
    /\ field "name" tool = JString "smart_web_search"
    /\ field "required" (field "inputSchema" tool) = JArray [JString "query"]
    /\ field "type" (field "query" (field "properties" (field "inputSchema" tool)))
       = JString "string".
Proof.
  intros Hd Hm. apply eq_str_true in Hm. eexists. split.
  - apply handle_message_sent; [exact Hd|].
    unfold try_body. mstep. fold (method_of fields) (id_of fields). rewrite Hm.
    cbn [eq_str String.eqb Ascii.eqb Bool.eqb]. unfold list_tools. mstep.
    cbn [map]. reflexivity.
  - repeat split; reflexivity.
Qed.

(** X5. The registry and the dispatcher agree: a tool that [list_tools]
    lists is dispatched by [call_tool] under its listed name, and
    arguments that hold every key the tool's schema lists as required
    pass the validation, so that the adapter runs on the query. *)
Theorem listed_tool_is_dispatched
  (tools : list Tool) (tool : Tool) (required : list json)
  (arguments : list (string * json)) (h : trace) :
  list_tools h = (Ok tools, []) ->
  In tool tools ->
  field "required" (inputSchema tool) = JArray required ->
  (forall key, In (JString key) required -> dict_mem key arguments = true) ->
  exists query,
    dict_get "query" arguments = Some query
    /\ call_tool (JString (name tool)) (JObject arguments) h =
         (result <- adapter query ;; ret [ {| type := "text"; text := result |} ]) h.
Proof.
  intros Hl Hin Hreq Hkeys.
  unfold list_tools, ret in Hl. injection Hl as <-.
  destruct Hin as [<-|[]]. cbn in Hreq. injection Hreq as <-.
  specialize (Hkeys "query" (or_introl eq_refl)).
  unfold dict_mem in Hkeys.
  destruct (dict_get "query" arguments) as [query|] eqn:Hq; [|discriminate].
  exists query. split; [reflexivity|].
  now apply call_tool_search.
Qed.

End Handler.

(* ------------------------------------------------------------------ *)
(** ** The adapter *)

Lemma extract_block_fold (content : list content_block) (search_results : list string) :
  fold_left extract_block content search_results =
    (search_results ++ text_payloads content)%list.
Proof.
  revert search_results.
  induction content as [|b content IH]; intros search_results.
  - cbn. now rewrite app_nil_r.
  - cbn [fold_left]. rewrite IH. unfold extract_block, text_payloads.
    cbn [filter]. destruct (block_type b =? "text").
    + cbn [map]. now rewrite <- app_assoc.
    + destruct ((block_type b =? "tool_use") && (block_name b =? "web_search"));
        reflexivity.
Qed.

Lemma extract_results_text_payloads (content : list content_block) :
  extract_results content =
    match text_payloads content with
    | [] => "No related search results found."
    | _ :: _ => join nl (text_payloads content)
    end.
Proof. unfold extract_results. now rewrite extract_block_fold. Qed.

Lemma text_payloads_without_tool_use (content : list content_block) :
  text_payloads (without_tool_use content) = text_payloads content.
Proof.
  unfold text_payloads, without_tool_use.
  induction content as [|b content IH]; [reflexivity|].
  cbn [filter]. destruct (block_type b =? "text") eqn:Ht.
  - apply String.eqb_eq in Ht. rewrite Ht. cbn [String.eqb Ascii.eqb Bool.eqb negb].
    cbn [filter]. rewrite Ht. cbn [String.eqb Ascii.eqb Bool.eqb map].
    now rewrite <- IH.
  - destruct (block_type b =? "tool_use"); cbn [negb]; [exact IH|].
    cbn [filter]. rewrite Ht. exact IH.
Qed.

(** The adapter always returns, after one request to the provider. *)
Lemma search_with_claude_run (query : json) (h : trace) :
  search_with_claude query h =
    (Ok match client_messages_create h (search_request query) with
        | Ok content => extract_results content
        | Raised e => "Search failed: " ++ exn_str e
        end,
     [ProviderCall (search_request query)]).
Proof.
  unfold search_with_claude, try_except, bind, messages_create, ret.
  destruct (client_messages_create h (search_request query)); reflexivity.
Qed.

Lemma search_with_claude_sends_nothing (query : json) (h : trace) :
  responses (snd (search_with_claude query h)) = [].
Proof. now rewrite search_with_claude_run. Qed.

(** C4. When the call to the provider raises, [search_with_claude] does
    not: it returns ["Search failed: "] followed by the exception's
    description. *)
Theorem C4_provider_exception_becomes_result (query : json) (h : trace) (e : exn) :
  client_messages_create h (search_request query) = Raised e ->
  search_with_claude query h =
    (Ok ("Search failed: " ++ exn_str e), [ProviderCall (search_request query)]).
Proof. intros Hp. now rewrite search_with_claude_run, Hp. Qed.

(** C8. When the provider answers with a list of content blocks, the
    adapter returns the payloads of the text blocks, in the order
    received, joined by newlines, or the sentinel
    ["No related search results found."] when there is no text block;
    dropping the tool-invocation blocks from the answer does not change
    the result. *)
Theorem C8_adapter_joins_text_payloads
  (query : json) (h : trace) (content : list content_block) :
  client_messages_create h (search_request query) = Ok content ->
  fst (search_with_claude query h) =
    Ok match text_payloads content with
       | [] => "No related search results found."
       | _ :: _ => join nl (text_payloads content)
       end
  /\ extract_results (without_tool_use content) = extract_results content.
Proof.
  intros Hp. split.
  - rewrite search_with_claude_run, Hp. cbn [fst].
    now rewrite extract_results_text_payloads.
  - rewrite !extract_results_text_payloads.
    now rewrite text_payloads_without_tool_use.
Qed.

(* ------------------------------------------------------------------ *)
(** ** The handler with the adapter the module defines *)

(** C3, as amended. For a [tools/call] naming [smart_web_search] with a
    ["query"] among its arguments, when the provider call made by the
    adapter raises, the one response sent is a result envelope, without
    an [error] field, whose single content text is ["Search failed: "]
    followed by the exception's description. *)
Theorem C3_provider_failure_is_reported_as_content
  (request : option json) (message : string)
  (fields params arguments : list (string * json)) (query : json)
  (h : trace) (e : exn) :
  json_loads message = Ok (JObject fields) ->
  eq_str (method_of fields) "tools/call" = true ->
  params_of fields = JObject params ->
  eq_str (name_of params) "smart_web_search" = true ->
  arguments_of params = JObject arguments ->
  dict_get "query" arguments = Some query ->
  client_messages_create h (search_request query) = Raised e ->
  exists response,
    responses (snd (handle_message search_with_claude request message h)) = [response]
    /\ has_field "result" response = true
    /\ has_field "error" response = false
    /\ content_texts response = [JString ("Search failed: " ++ exn_str e)].
Proof.
  intros Hd Hm Hp Hn Ha Hq Hr.
  eexists. split.
  - erewrite handle_message_sent; [|exact Hd|].
    2:{ rewrite (try_body_tools_call _ fields params h Hm Hp), Ha.
        rewrite (call_tool_search _ _ _ _ _ Hn Hq).
        erewrite bind_ok by (rewrite search_with_claude_run, Hr; reflexivity).
        unfold ret. cbn [fst snd map app]. reflexivity. }
    reflexivity.
  - repeat split; reflexivity.
Qed.

(** With the module's adapter, a decoded dict is answered by exactly one
    envelope, which carries either a result or an error and the request's
    identifier. *)
Lemma handle_message_dict_response
  (request : option json) (message : string) (fields : list (string * json))
  (h : trace) :
  json_loads message = Ok (JObject fields) ->
  exists response,
    responses (snd (handle_message search_with_claude request message h)) = [response]
    /\ exactly_one_of_result_error response = true
    /\ has_field "id" response = true
    /\ field "id" response = id_of fields.
Proof.
  intros Hd.
  destruct (handle_message_dict search_with_claude request message fields h Hd)
    as (es & [key value] & Hrun & Hkey & Hes).
  eexists. split.
  - rewrite Hrun. cbn [snd]. rewrite responses_app.
    replace (responses es) with (@nil json); [reflexivity|].
    destruct Hes as [->|[query ->]]; [reflexivity|].
    now rewrite search_with_claude_sends_nothing.
  - cbn [fst] in Hkey. destruct Hkey as [->| ->]; repeat split; reflexivity.
Qed.

(** C2. A decoded request (a dict) whose method is [initialize],
    [tools/list] or [tools/call] is answered by exactly one response,
    whose [id] field is the request's [id], and is [None] when the request
    has none. *)
Theorem C2_identifier_is_echoed
  (request : option json) (message : string) (fields : list (string * json))
  (h : trace) :
  json_loads message = Ok (JObject fields) ->
  eq_str (method_of fields) "initialize"
    || eq_str (method_of fields) "tools/list"
    || eq_str (method_of fields) "tools/call" = true ->
  exists response,
    responses (snd (handle_message search_with_claude request message h)) = [response]
    /\ has_field "id" response = true
    /\ field "id" response =
         match dict_get "id" fields with Some id => id | None => JNull end.
Proof.
  intros Hd _.
  destruct (handle_message_dict_response request message fields h Hd)
    as (response & Hr & _ & Hhas & Hid).
  exists response. repeat split; assumption.
Qed.

Lemma handle_message_responses (request : option json) (message : string) (h : trace) :
  Forall (fun response => exactly_one_of_result_error response = true)
         (responses (snd (handle_message search_with_claude request message h))).
Proof.
  destruct (json_loads message) as [decoded|e] eqn:Hd.
  - destruct (is_dict decoded) eqn:Hdict.
    + destruct decoded; try discriminate.
      destruct (handle_message_dict_response request message fields h Hd)
        as (response & -> & Hone & _).
      now constructor.
    + rewrite (handle_message_not_dict _ request message decoded h Hd Hdict).
      constructor.
  - destruct request as [bound|].
    + destruct (is_dict bound) eqn:Hdict.
      * destruct bound; try discriminate.
        rewrite (handle_message_malformed_bound _ fields message e h Hd).
        now constructor.
      * rewrite (handle_message_malformed_bound_not_dict _ bound message e h Hd Hdict).
        constructor.
    + rewrite (handle_message_malformed_unbound _ message e h Hd).
      now constructor.
Qed.

Lemma handle_messages_responses
  (messages : list string) (request : option json) (h : trace) :
  Forall (fun response => exactly_one_of_result_error response = true)
         (responses (snd (handle_messages search_with_claude request messages h))).
Proof.
  revert request h.
  induction messages as [|message rest IH]; intros request h.
  - constructor.
  - cbn [handle_messages].
    pose proof (handle_message_responses request message h) as Hm.
    destruct (handle_message search_with_claude request message h)
      as [[request'|e] es] eqn:Hrun.
    + erewrite bind_ok by exact Hrun. cbn [snd] in *.
      rewrite responses_app. apply Forall_app. split; [exact Hm | apply IH].
    + erewrite bind_raised by exact Hrun. exact Hm.
Qed.

(** C9. Whatever messages arrive, every response the handler sends carries
    a [result] or an [error], and never both. *)
Theorem C9_every_response_has_result_xor_error (messages : list string) (h : trace) :
  Forall (fun response => exactly_one_of_result_error response = true)
         (responses (snd (handle_websocket search_with_claude messages h))).
Proof. apply handle_messages_responses. Qed.

(** C10. For a call of [smart_web_search] whose arguments are a dict with
    the key ["query"], [call_tool] hands the value under ["query"] to the
    adapter as it is, whatever its type, and the adapter puts its [str]
    into the one request it makes to the provider. *)
Theorem C10_query_is_passed_on_unchecked
  (adapter : json -> M string) (name : json) (arguments : list (string * json))
  (query : json) (h : trace) :
  eq_str name "smart_web_search" = true ->
  dict_get "query" arguments = Some query ->
  call_tool adapter name (JObject arguments) h =
    (result <- adapter query ;; ret [ {| type := "text"; text := result |} ]) h
  /\ provider_calls (snd (call_tool search_with_claude name (JObject arguments) h)) =
       [search_request query]
  /\ user_content (search_request query) =
       "Please search for the following content and provide detailed search results: "
         ++ str query.
Proof.
  intros Hn Hq. split; [now apply call_tool_search|]. split; [|reflexivity].
  rewrite (call_tool_search _ _ _ _ _ Hn Hq).
  erewrite bind_ok by apply search_with_claude_run. reflexivity.
Qed.

(* ------------------------------------------------------------------ *)
(** ** Further properties of the handler with the module's adapter *)

Lemma handle_message_search_run
  (request : option json) (message : string) (fields : list (string * json))
  (query : json) (h : trace) :
  json_loads message = Ok (JObject fields) ->
  search_call fields = Some query ->
  handle_message search_with_claude request message h =
    (Ok (Some (JObject fields)),
     [ProviderCall (search_request query);
      Sent (text_response
              match client_messages_create h (search_request query) with
              | Ok content => extract_results content
              | Raised e => "Search failed: " ++ exn_str e
              end
              (id_of fields))]).
Proof.
  intros Hd Hs.
  destruct (search_call_some fields query Hs)
    as (Hm & params & arguments & Hp & Hn & Ha & Hq).
  assert (Hc : call_tool search_with_claude (name_of params) (arguments_of params) h =
                 (Ok [ {| type := "text";
                          text :=
                            match client_messages_create h (search_request query) with
                            | Ok content => extract_results content
                            | Raised e => "Search failed: " ++ exn_str e
                            end |} ],
                  [ProviderCall (search_request query)])).
  { rewrite Ha, (call_tool_search _ _ _ _ _ Hn Hq).
    erewrite bind_ok by apply search_with_claude_run. reflexivity. }
  rewrite (handle_message_tools_call_result _ request message fields params h _ _
             Hd Hm Hp Hc).
  reflexivity.
Qed.

Lemma handle_message_without_search
  (request : option json) (message : string) (fields : list (string * json))
  (h : trace) :
  json_loads message = Ok (JObject fields) ->
  search_call fields = None ->
  exists response,
    handle_message search_with_claude request message h =
      (Ok (Some (JObject fields)), [Sent response])
    /\ is_protocol_envelope response = true
    /\ field "id" response = id_of fields
    /\ (eq_str (method_of fields) "tools/call" = true ->
        is_dict (params_of fields) = true ->
        exists text, response = text_response text (id_of fields)).
Proof.
  intros Hd Hs.
  destruct (eq_str (method_of fields) "tools/call") eqn:Hc.
  - destruct (is_dict (params_of fields)) eqn:Hdict.
    2:{ eexists. split.
        - exact (handle_message_caught _ request message fields h [] _ Hd
                   (try_body_tools_call_params_not_dict _ fields h Hc Hdict)).
        - repeat split; try reflexivity. intros; discriminate. }
    destruct (params_of fields) as [| | | | | |params] eqn:Hp; try discriminate.
    destruct (call_tool_without_search search_with_claude fields params h Hc Hp Hs)
      as [text Ht].
    exists (text_response text (id_of fields)). split.
    + now rewrite (handle_message_tools_call_result _ request message fields params h
                     _ _ Hd Hc Hp Ht).
    + repeat split; try reflexivity. intros _ _. now exists text.
  - destruct (eq_str (method_of fields) "initialize") eqn:Hi.
    { eexists. split.
      - apply handle_message_sent; [exact Hd|]. now apply try_body_initialize.
      - repeat split; try reflexivity. intros; discriminate. }
    destruct (eq_str (method_of fields) "tools/list") eqn:Hl.
    { destruct (try_body_tools_list search_with_claude fields h Hl) as [tools Ht].
      eexists. split.
      - apply handle_message_sent; [exact Hd | exact Ht].
      - repeat split; try reflexivity. intros; discriminate. }
    eexists. split.
    + apply handle_message_sent; [exact Hd|]. now apply try_body_unknown_method.
    + repeat split; try reflexivity. intros; discriminate.
Qed.

Lemma handle_message_provider_calls
  (request : option json) (message : string) (h : trace) :
  provider_calls (snd (handle_message search_with_claude request message h)) =
    match json_loads message with
    | Ok (JObject fields) =>
        match search_call fields with
        | Some query => [search_request query]
        | None => []
        end
    | _ => []
    end.
Proof.
  destruct (json_loads message) as [decoded|e] eqn:Hd.
  - destruct (is_dict decoded) eqn:Hdict.
    + destruct decoded; try discriminate.
      destruct (search_call fields) as [query|] eqn:Hs.
      * now rewrite (handle_message_search_run request message fields query h Hd Hs).
      * destruct (handle_message_without_search request message fields h Hd Hs)
          as (response & -> & _). reflexivity.
    + rewrite (handle_message_not_dict _ request message decoded h Hd Hdict).
      destruct decoded; try discriminate; reflexivity.
  - destruct request as [bound|].
    + destruct (is_dict bound) eqn:Hdict.
      * destruct bound; try discriminate.
        now rewrite (handle_message_malformed_bound _ fields message e h Hd).
      * now rewrite (handle_message_malformed_bound_not_dict _ bound message e h Hd Hdict).
    + now rewrite (handle_message_malformed_unbound _ message e h Hd).
Qed.

Lemma handle_message_envelopes (request : option json) (message : string) (h : trace) :
  Forall (fun response => is_protocol_envelope response = true)
         (responses (snd (handle_message search_with_claude request message h)))
  /\ (List.length (responses (snd (handle_message search_with_claude request message h))) <= 1)%nat.
Proof.
  destruct (json_loads message) as [decoded|e] eqn:Hd.
  - destruct (is_dict decoded) eqn:Hdict.
    + destruct decoded; try discriminate.
      destruct (search_call fields) as [query|] eqn:Hs.
      * rewrite (handle_message_search_run request message fields query h Hd Hs).
        split; [now constructor | cbn; lia].
      * destruct (handle_message_without_search request message fields h Hd Hs)
          as (response & -> & Henv & _).
        split; [now constructor | cbn; lia].
    + rewrite (handle_message_not_dict _ request message decoded h Hd Hdict).
      split; [constructor | cbn; lia].
  - destruct request as [bound|].
    + destruct (is_dict bound) eqn:Hdict.
      * destruct bound; try discriminate.
        rewrite (handle_message_malformed_bound _ fields message e h Hd).
        split; [now constructor | cbn; lia].
      * rewrite (handle_message_malformed_bound_not_dict _ bound message e h Hd Hdict).
        split; [constructor | cbn; lia].
    + rewrite (handle_message_malformed_unbound _ message e h Hd).
      split; [now constructor | cbn; lia].
Qed.

Lemma handle_message_provider_calls_bound
  (request : option json) (message : string) (h : trace) :
  (List.length (provider_calls (snd (handle_message search_with_claude request message h))) <= 1)%nat.
Proof.
  rewrite handle_message_provider_calls.
  destruct (json_loads message) as [[| | | | | |fields]|e]; cbn; try lia.
  destruct (search_call fields); cbn; lia.
Qed.

(** A turn on an answerable message sends exactly one response and
    leaves [request] unbound or bound to a dict. *)
Lemma handle_message_answerable
  (request : option json) (message : string) (h : trace) :
  answerable message = true ->
  match request with Some bound => is_dict bound = true | None => True end ->
  exists request' es,
    handle_message search_with_claude request message h = (Ok request', es)
    /\ match request' with Some bound => is_dict bound = true | None => True end
    /\ List.length (responses es) = 1%nat.
Proof.
  unfold answerable. intros Ha Hb.
  destruct (json_loads message) as [decoded|e] eqn:Hd.
  - destruct decoded; try discriminate.
    destruct (search_call fields) as [query|] eqn:Hs.
    + rewrite (handle_message_search_run request message fields query h Hd Hs).
      do 2 eexists. repeat split.
    + destruct (handle_message_without_search request message fields h Hd Hs)
        as (response & -> & _).
      do 2 eexists. repeat split.
  - destruct request as [bound|].
    + destruct bound; try discriminate.
      rewrite (handle_message_malformed_bound _ fields message e h Hd).
      do 2 eexists. repeat split.
    + rewrite (handle_message_malformed_unbound _ message e h Hd).
      do 2 eexists. repeat split.
Qed.

Lemma handle_messages_answerable
  (messages : list string) (request : option json) (h : trace) :
  Forall (fun message => answerable message = true) messages ->
  match request with Some bound => is_dict bound = true | None => True end ->
  fst (handle_messages search_with_claude request messages h) = Ok tt
  /\ List.length (responses (snd (handle_messages search_with_claude request messages h)))
     = List.length messages.
Proof.
  revert request h.
  induction messages as [|message rest IH]; intros request h Hall Hb.
  - split; reflexivity.
  - inversion Hall as [|? ? Ha Hrest]; subst.
    destruct (handle_message_answerable request message h Ha Hb)
      as (request' & es & Hrun & Hb' & Hlen).
    cbn [handle_messages]. erewrite bind_ok by exact Hrun. cbn [fst snd].
    destruct (IH request' (h ++ es)%list Hrest Hb') as [Hok Hn].
    split; [exact Hok|].
    rewrite responses_app, length_app, Hlen, Hn. reflexivity.
Qed.

Lemma handle_messages_identifiers
  (messages : list string) (requests : list (list (string * json)))
  (request : option json) (h : trace) :
  map json_loads messages = map (fun fields => Ok (JObject fields)) requests ->
  map (field "id")
      (responses (snd (handle_messages search_with_claude request messages h)))
  = map id_of requests.
Proof.
  revert requests request h.
  induction messages as [|message rest IH]; intros requests request h Hmap.
  - destruct requests; [reflexivity | discriminate].
  - destruct requests as [|fields requests]; [discriminate|].
    cbn [map] in Hmap. injection Hmap as Hd Hrest.
    destruct (handle_message_dict search_with_claude request message fields h Hd)
      as (es & [key value] & Hrun & Hkey & Hes).
    cbn [handle_messages]. erewrite bind_ok by exact Hrun. cbn [snd].
    rewrite !responses_app, !map_app, (IH requests _ _ Hrest).
    replace (responses es) with (@nil json).
    2:{ destruct Hes as [->|[query ->]]; [reflexivity|].
        now rewrite search_with_claude_sends_nothing. }
    cbn [fst] in Hkey. destruct Hkey as [->| ->]; reflexivity.
Qed.

Lemma handle_messages_bounds
  (messages : list string) (request : option json) (h : trace) :
  Forall (fun response => is_protocol_envelope response = true)
         (responses (snd (handle_messages search_with_claude request messages h)))
  /\ (List.length (responses (snd (handle_messages search_with_claude request messages h)))
      <= List.length messages)%nat
  /\ (List.length (provider_calls (snd (handle_messages search_with_claude request messages h)))
      <= List.length messages)%nat.
Proof.
  revert request h.
  induction messages as [|message rest IH]; intros request h.
  - repeat split; [constructor | cbn; lia | cbn; lia].
  - cbn [handle_messages].
    destruct (handle_message_envelopes request message h) as [Henv Hone].
    pose proof (handle_message_provider_calls_bound request message h) as Hcall.
    destruct (handle_message search_with_claude request message h)
      as [[request'|e] es] eqn:Hrun; cbn [snd] in *.
    + erewrite bind_ok by exact Hrun. cbn [snd].
      destruct (IH request' (h ++ es)%list) as (Henv' & Hone' & Hcall').
      rewrite responses_app, provider_calls_app, !length_app.
      repeat split; [now apply Forall_app | cbn [List.length]; lia | cbn [List.length]; lia].
    + erewrite bind_raised by exact Hrun. cbn [snd].
      repeat split; [exact Henv | cbn [List.length]; lia | cbn [List.length]; lia].
Qed.

Lemma handle_message_tools_call_text
  (request : option json) (message : string) (fields params : list (string * json))
  (h : trace) :
  json_loads message = Ok (JObject fields) ->
  eq_str (method_of fields) "tools/call" = true ->
  params_of fields = JObject params ->
  exists text,
    fst (handle_message search_with_claude request message h) = Ok (Some (JObject fields))
    /\ responses (snd (handle_message search_with_claude request message h))
       = [text_response text (id_of fields)].
Proof.
  intros Hd Hm Hp.
  destruct (search_call fields) as [query|] eqn:Hs.
  - rewrite (handle_message_search_run request message fields query h Hd Hs).
    eexists. split; reflexivity.
  - destruct (handle_message_without_search request message fields h Hd Hs)
      as (response & -> & _ & _ & Htext).
    destruct (Htext Hm) as [text ->]; [now rewrite Hp|].
    exists text. split; reflexivity.
Qed.

(** X6. A search call (a [tools/call] of [smart_web_search] with a
    ["query"]) makes one request to the provider and then sends one
    result envelope with the request's identifier, whose single text is
    the joined text of the provider's answer, or ["Search failed: "] and
    the description when the provider raised. *)
Theorem search_call_is_answered_with_the_adapter_text
  (request : option json) (message : string) (fields : list (string * json))
  (query : json) (h : trace) :
  json_loads message = Ok (JObject fields) ->
  search_call fields = Some query ->
  handle_message search_with_claude request message h =
    (Ok (Some (JObject fields)),
     [ProviderCall (search_request query);
      Sent (text_response
              match client_messages_create h (search_request query) with
              | Ok content => extract_results content
              | Raised e => "Search failed: " ++ exn_str e
              end
              (id_of fields))]).
Proof. exact (handle_message_search_run request message fields query h). Qed.

(** X7. Two search calls in a row on one connection are served one after
    the other: the provider is asked for the second only after the
    response to the first was sent, and what it answers then may depend
    on that. *)
Theorem sequential_searches_are_serialized
  (message1 message2 : string) (fields1 fields2 : list (string * json))
  (query1 query2 : json) (h : trace) :
  json_loads message1 = Ok (JObject fields1) ->
  search_call fields1 = Some query1 ->
  json_loads message2 = Ok (JObject fields2) ->
  search_call fields2 = Some query2 ->
  let text history query :=
    match client_messages_create history (search_request query) with
    | Ok content => extract_results content
    | Raised e => "Search failed: " ++ exn_str e
    end in
  let first :=
    [ProviderCall (search_request query1);
     Sent (text_response (text h query1) (id_of fields1))] in
  handle_websocket search_with_claude [message1; message2] h =
    (Ok tt,
     (first ++
      [ProviderCall (search_request query2);
       Sent (text_response (text (h ++ first)%list query2) (id_of fields2))])%list).
Proof.
  intros Hd1 Hs1 Hd2 Hs2 text first.
  unfold handle_websocket. cbn [handle_messages].
  erewrite bind_ok by (apply handle_message_search_run; eassumption).
  erewrite bind_ok by (apply handle_message_search_run; eassumption).
  reflexivity.
Qed.

(** X8. In one turn the provider is called for a search call, once and
    with the request built from its query, and for nothing else: not for
    a frame that fails to decode, not for another method, not for an
    unknown tool or invalid arguments. *)
Theorem provider_is_called_only_for_a_search_call
  (request : option json) (message : string) (h : trace) :
  provider_calls (snd (handle_message search_with_claude request message h)) =
    match json_loads message with
    | Ok (JObject fields) =>
        match search_call fields with
        | Some query => [search_request query]
        | None => []
        end
    | _ => []
    end.
Proof. exact (handle_message_provider_calls request message h). Qed.

(** X9. Whatever messages arrive, every response sent carries the marker
    ["jsonrpc": "2.0"] and an [id] member, and every [error] member has
    the code -32601 or -32603 and a [str] message. *)
Theorem every_response_is_a_protocol_envelope (messages : list string) (h : trace) :
  Forall (fun response => is_protocol_envelope response = true)
         (responses (snd (handle_websocket search_with_claude messages h))).
Proof. exact (proj1 (handle_messages_bounds messages None h)). Qed.


(** X11. When every message fails to decode or decodes to a dict, the
    handler outlives them all and sends exactly one response per
    message. *)
Theorem answerable_messages_are_each_answered (messages : list string) (h : trace) :
  Forall (fun message => answerable message = true) messages ->
  fst (handle_websocket search_with_claude messages h) = Ok tt
  /\ List.length (responses (snd (handle_websocket search_with_claude messages h)))
     = List.length messages.
Proof. intros Hall. now apply handle_messages_answerable. Qed.

(** X12. When every message decodes to a dict, the identifiers of the
    responses are, in order, the identifiers of the requests ([None] for
    a request without one). *)
Theorem responses_carry_the_request_ids_in_order
  (messages : list string) (requests : list (list (string * json))) (h : trace) :
  map json_loads messages = map (fun fields => Ok (JObject fields)) requests ->
  map (field "id") (responses (snd (handle_websocket search_with_claude messages h)))
  = map id_of requests.
Proof. apply handle_messages_identifiers. Qed.


(** X14. A [tools/call] whose [params] is a dict is always answered by a
    result envelope with exactly one text block and the request's
    identifier, whatever the tool name and the arguments are and
    whatever the provider does. *)
Theorem tools_call_with_dict_params_gets_a_result
  (request : option json) (message : string) (fields params : list (string * json))
  (h : trace) :
  json_loads message = Ok (JObject fields) ->
  eq_str (method_of fields) "tools/call" = true ->
  params_of fields = JObject params ->
  exists text,
    fst (handle_message search_with_claude request message h) = Ok (Some (JObject fields))
    /\ responses (snd (handle_message search_with_claude request message h))
       = [text_response text (id_of fields)].
Proof. exact (handle_message_tools_call_text request message fields params h). Qed.

(** X15. The request that the test client's [send_request] builds, with
    [params] left out or a dict and one of the three methods, is
    answered by exactly one response, which has the identifier 1, a
    [result] and no [error], whatever the provider does. *)
Theorem client_request_is_answered_with_a_result
  (request : option json) (frame method : string) (params : json) (h : trace) :
  json_loads frame = Ok (send_request_envelope method params) ->
  params = JNull \/ is_dict params = true ->
  method = "initialize" \/ method = "tools/list" \/ method = "tools/call" ->
  exists response,
    responses (snd (handle_message search_with_claude request frame h)) = [response]
    /\ field "id" response = JInt 1
    /\ has_field "result" response = true
    /\ has_field "error" response = false.
Proof.
  unfold send_request_envelope. intros Hd Hp Hm.
  destruct Hm as [->|[->| ->]].
  - eexists. split.
    + erewrite handle_message_sent; [|exact Hd|apply try_body_initialize; reflexivity].
      reflexivity.
    + repeat split; reflexivity.
  - match type of Hd with
    | _ = Ok (JObject ?fields) =>
        destruct (try_body_tools_list search_with_claude fields h eq_refl) as [tools Ht]
    end.
    eexists. split.
    + erewrite handle_message_sent; [|exact Hd|exact Ht]. reflexivity.
    + repeat split; reflexivity.
  - assert (Hdict : exists fields,
               (if py_truthy params then params else JObject []) = JObject fields).
    { destruct Hp as [->|Hp]; [now exists []|].
      destruct params; try discriminate. destruct fields; eexists; reflexivity. }
    destruct Hdict as [fields Hf].
    edestruct handle_message_tools_call_text as (text & _ & Hr);
      [exact Hd | reflexivity | exact Hf |].
    exists (text_response text (JInt 1)). split; [exact Hr|].
    repeat split; reflexivity.
Qed.

End Server.


(* ================================================================== *)
(** * The server on the concrete connection *)

(** C1. A frame that is not JSON, arriving after the request with
    identifier 7 was decoded, is answered by the error -32603 addressed to
    7, the identifier of the earlier request, and not to [None]: the
    local [request] of the handler is still bound to that request. *)
Theorem C1_malformed_after_request_is_addressed_to_earlier_id :
  responses
    (snd (handle_websocket no_float_repr plain_str_repr loads
            (search_with_claude no_float_repr plain_str_repr answering_provider)
            [initialize_frame; garbage_frame] []))
  = [ result_response initialize_result (JInt 7);
      error_response (-32603) "Expecting value: line 1 column 1 (char 0)" (JInt 7) ].
Proof. vm_compute. reflexivity. Qed.

(** The same frame as the first message of a connection is addressed to
    [None], and the request after it is served. *)
Example malformed_first_is_addressed_to_null :
  responses
    (snd (handle_websocket no_float_repr plain_str_repr loads
            (search_with_claude no_float_repr plain_str_repr answering_provider)
            [garbage_frame; initialize_frame] []))
  = [ error_response (-32603) "Expecting value: line 1 column 1 (char 0)" JNull;
      result_response initialize_result (JInt 7) ].
Proof. vm_compute. reflexivity. Qed.

(** A request without a method is told that [None] was not found. *)
Example absent_method_is_not_found :
  responses
    (snd (handle_websocket no_float_repr plain_str_repr loads raising_adapter
            [no_method_frame] []))
  = [ error_response (-32601) "Method not found: None" (JInt 4) ].
Proof. vm_compute. reflexivity. Qed.

(** A frame that decodes to something other than a dict ends the handler
    with the second [AttributeError], the one raised in the [except]
    clause; the request after it is never read. *)
Example not_a_dict_ends_the_handler :
  handle_websocket no_float_repr plain_str_repr loads raising_adapter
    [array_frame; initialize_frame] []
  = (Raised (Exception "'list' object has no attribute 'get'"), []).
Proof. vm_compute. reflexivity. Qed.

(** C2 on [tools/list] sent without an identifier. *)
Lemma C2_identifier_is_echoed_witness :
  exists response,
    responses
      (snd (handle_message no_float_repr plain_str_repr loads
              (search_with_claude no_float_repr plain_str_repr answering_provider)
              None list_frame []))
    = [response]
    /\ has_field "id" response = true
    /\ field "id" response = JNull.
Proof.
  exact (C2_identifier_is_echoed no_float_repr plain_str_repr loads answering_provider
           None list_frame
           [("jsonrpc", JString "2.0"); ("method", JString "tools/list")] []
           eq_refl eq_refl).
Defined.

(** C3, as stated, fails: with the adapter replaced by one that raises,
    the search call of the test client is answered by the protocol error
    -32603, an envelope with an [error] and no [result]. *)
Lemma C3_replaced_adapter_counterexample :
  responses
    (snd (handle_message no_float_repr plain_str_repr loads raising_adapter
            None search_frame []))
  = [ error_response (-32603) "adapter down" (JInt 1) ]
  /\ has_field "result" (error_response (-32603) "adapter down" (JInt 1)) = false
  /\ has_field "error" (error_response (-32603) "adapter down" (JInt 1)) = true.
Proof. vm_compute. repeat split. Qed.

(** C3, as amended, on the search call of the test client with a provider
    that cannot be reached. *)
Lemma C3_provider_failure_is_reported_as_content_witness :
  exists response,
    responses
      (snd (handle_message no_float_repr plain_str_repr loads
              (search_with_claude no_float_repr plain_str_repr failing_provider)
              None search_frame []))
    = [response]
    /\ has_field "result" response = true
    /\ has_field "error" response = false
    /\ content_texts response = [JString "Search failed: Connection error."].
Proof.
  exact (C3_provider_failure_is_reported_as_content
           no_float_repr plain_str_repr loads failing_provider
           None search_frame search_request_fields search_params search_arguments
           (JString "What is MCP protocol?") [] provider_error
           eq_refl eq_refl eq_refl eq_refl eq_refl eq_refl eq_refl).
Defined.

(** C4 with a provider that cannot be reached. *)
Lemma C4_provider_exception_becomes_result_witness :
  search_with_claude no_float_repr plain_str_repr failing_provider
    (JString "What is MCP protocol?") []
  = (Ok "Search failed: Connection error.",
     [ProviderCall
        (search_request no_float_repr plain_str_repr (JString "What is MCP protocol?"))]).
Proof.
  exact (C4_provider_exception_becomes_result
           no_float_repr plain_str_repr failing_provider
           (JString "What is MCP protocol?") [] provider_error eq_refl).
Defined.

(** C5 on a call of [unknown_tool]. *)
Lemma C5_unknown_tool_is_reported_as_content_witness :
  call_tool no_float_repr plain_str_repr raising_adapter
    (JString "unknown_tool") (JObject []) []
  = (Ok [ {| type := "text"; text := "Unknown tool: unknown_tool" |} ], [])
  /\ handle_message no_float_repr plain_str_repr loads raising_adapter
       None unknown_tool_frame []
     = (Ok (Some (JObject unknown_tool_fields)),
        [Sent (result_response
                 (JObject
                    [("content",
                       JArray
                         [JObject [("type", JString "text");
                                   ("text", JString "Unknown tool: unknown_tool")]])])
                 (JInt 2))]).
Proof.
  exact (C5_unknown_tool_is_reported_as_content
           no_float_repr plain_str_repr loads raising_adapter
           None unknown_tool_frame unknown_tool_fields unknown_tool_params []
           eq_refl eq_refl eq_refl eq_refl).
Defined.

(** C6 on a call of [smart_web_search] without the key ["query"]. *)
Lemma C6_invalid_arguments_are_reported_as_content_witness :
  call_tool no_float_repr plain_str_repr raising_adapter
    (JString "smart_web_search") (JObject [("q", JString "MCP")]) []
  = (Ok [ {| type := "text";
             text := "Invalid arguments for smart_web_search: {'q': 'MCP'}" |} ], [])
  /\ handle_message no_float_repr plain_str_repr loads raising_adapter
       None no_query_frame []
     = (Ok (Some (JObject no_query_fields)),
        [Sent (result_response
                 (JObject
                    [("content",
                       JArray
                         [JObject
                            [("type", JString "text");
                             ("text",
                               JString
                                 "Invalid arguments for smart_web_search: {'q': 'MCP'}")]])])
                 (JInt 3))])
  /\ provider_calls
       (snd (handle_message no_float_repr plain_str_repr loads raising_adapter
               None no_query_frame []))
     = [].
Proof.
  exact (C6_invalid_arguments_are_reported_as_content
           no_float_repr plain_str_repr loads raising_adapter
           None no_query_frame no_query_fields no_query_params []
           eq_refl eq_refl eq_refl eq_refl (or_intror eq_refl)).
Defined.

(** C7 on the method [not/a/real/method]. *)
Lemma C7_unknown_method_is_protocol_error_witness :
  handle_message no_float_repr plain_str_repr loads raising_adapter
    None unknown_method_frame []
  = (Ok (Some (JObject unknown_method_fields)),
     [Sent (JObject
              [("jsonrpc", JString "2.0");
               ("error",
                 JObject
                   [("code", JInt (-32601));
                    ("message", JString "Method not found: not/a/real/method")]);
               ("id", JString "abc")])]).
Proof.
  exact (C7_unknown_method_is_protocol_error
           no_float_repr plain_str_repr loads raising_adapter
           None unknown_method_frame unknown_method_fields []
           eq_refl eq_refl eq_refl eq_refl).
Defined.

(** C8 on an answer of two text blocks around a tool-invocation block. *)
Lemma C8_adapter_joins_text_payloads_witness :
  fst (search_with_claude no_float_repr plain_str_repr answering_provider
         (JString "What is MCP protocol?") [])
  = Ok ("MCP is the Model Context Protocol." ++ nl ++ "It connects models to tools.")
  /\ extract_results (without_tool_use answer) = extract_results answer.
Proof.
  exact (C8_adapter_joins_text_payloads
           no_float_repr plain_str_repr answering_provider
           (JString "What is MCP protocol?") [] answer eq_refl).
Defined.

(** C10 on a numeric query. *)
Lemma C10_query_is_passed_on_unchecked_witness :
  call_tool no_float_repr plain_str_repr raising_adapter
    (JString "smart_web_search") (JObject [("query", JInt 42)]) []
  = (result <- raising_adapter (JInt 42) ;;
     ret [ {| type := "text"; text := result |} ]) []
  /\ provider_calls
       (snd (call_tool no_float_repr plain_str_repr
               (search_with_claude no_float_repr plain_str_repr answering_provider)
               (JString "smart_web_search") (JObject [("query", JInt 42)]) []))
     = [search_request no_float_repr plain_str_repr (JInt 42)]
  /\ user_content (search_request no_float_repr plain_str_repr (JInt 42))
     = "Please search for the following content and provide detailed search results: 42".
Proof.
  exact (C10_query_is_passed_on_unchecked
           no_float_repr plain_str_repr answering_provider raising_adapter
           (JString "smart_web_search") [("query", JInt 42)] (JInt 42) []
           eq_refl eq_refl).
Defined.

(* ------------------------------------------------------------------ *)
(** ** Further properties on the concrete connection *)

(** X1 on the frame [[]] followed by a request. *)
Lemma not_a_dict_ends_the_connection_witness :
  handle_messages no_float_repr plain_str_repr loads raising_adapter
    None [array_frame; initialize_frame] []
  = (Raised (Exception "'list' object has no attribute 'get'"), []).
Proof.
  exact (not_a_dict_ends_the_connection no_float_repr plain_str_repr loads
           raising_adapter None array_frame (JArray []) [initialize_frame] []
           eq_refl eq_refl).
Defined.

(** X2 on a [tools/call] whose [params] is a list. *)
Lemma non_dict_params_is_internal_error_witness :
  handle_message no_float_repr plain_str_repr loads_more raising_adapter
    None list_params_frame []
  = (Ok (Some (JObject list_params_fields)),
     [Sent (error_response (-32603) "'list' object has no attribute 'get'" (JInt 5))]).
Proof.
  exact (non_dict_params_is_internal_error no_float_repr plain_str_repr loads_more
           raising_adapter None list_params_frame list_params_fields []
           eq_refl eq_refl eq_refl).
Defined.

(** X3 on the [initialize] request with identifier 7, after another
    request with an adapter that raises. *)
Lemma initialize_ignores_params_and_history_witness :
  handle_message no_float_repr plain_str_repr loads raising_adapter
    (Some (JObject unknown_tool_fields)) initialize_frame
    [Sent (error_response (-32603) "adapter down" (JInt 1))]
  = (Ok (Some initialize_request),
     [Sent (result_response initialize_result (JInt 7))])
  /\ field "protocolVersion" initialize_result = JString "1.0.0"
  /\ field "capabilities" initialize_result =
       JObject [("tools", JObject []); ("streaming", JBool true)].
Proof.
  exact (initialize_ignores_params_and_history no_float_repr plain_str_repr loads
           raising_adapter (Some (JObject unknown_tool_fields)) initialize_frame
           [("jsonrpc", JString "2.0"); ("method", JString "initialize"); ("id", JInt 7)]
           [Sent (error_response (-32603) "adapter down" (JInt 1))]
           eq_refl eq_refl).
Defined.

(** X4 on [tools/list] sent without an identifier. *)
Lemma tools_list_advertises_one_tool_witness :
  exists tool,
    handle_message no_float_repr plain_str_repr loads raising_adapter
      None list_frame []
    = (Ok (Some list_request),
       [Sent (result_response (JObject [("tools", JArray [tool])]) JNull)])
    /\ field "name" tool = JString "smart_web_search"
    /\ field "required" (field "inputSchema" tool) = JArray [JString "query"]
    /\ field "type" (field "query" (field "properties" (field "inputSchema" tool)))
       = JString "string".
Proof.
  exact (tools_list_advertises_one_tool no_float_repr plain_str_repr loads
           raising_adapter None list_frame
           [("jsonrpc", JString "2.0"); ("method", JString "tools/list")] []
           eq_refl eq_refl).
Defined.

(** X5 on the one listed tool and the arguments of the test client. *)
Lemma listed_tool_is_dispatched_witness :
  exists query,
    dict_get "query" search_arguments = Some query
    /\ call_tool no_float_repr plain_str_repr raising_adapter
         (JString "smart_web_search") (JObject search_arguments) []
       = (result <- raising_adapter query ;;
          ret [ {| type := "text"; text := result |} ]) [].
Proof.
  pose (tools := match fst (list_tools []) with Ok listed => listed | Raised _ => [] end).
  pose (tool := hd {| name := ""; description := ""; inputSchema := JNull |} tools).
  apply (listed_tool_is_dispatched no_float_repr plain_str_repr raising_adapter
           tools tool [JString "query"] search_arguments []
           eq_refl (or_introl eq_refl) eq_refl).
  intros key [H|[]]. injection H as <-. reflexivity.
Defined.

(** X6 on the search call of the test client. *)
Lemma search_call_is_answered_with_the_adapter_text_witness :
  handle_message no_float_repr plain_str_repr loads
    (search_with_claude no_float_repr plain_str_repr answering_provider)
    None search_frame []
  = (Ok (Some (JObject search_request_fields)),
     [ProviderCall
        (search_request no_float_repr plain_str_repr (JString "What is MCP protocol?"));
      Sent (text_response
              ("MCP is the Model Context Protocol." ++ nl ++ "It connects models to tools.")
              (JInt 1))]).
Proof.
  exact (search_call_is_answered_with_the_adapter_text no_float_repr plain_str_repr
           loads answering_provider None search_frame search_request_fields
           (JString "What is MCP protocol?") [] eq_refl eq_refl).
Defined.

(** X7 on the search call of the test client sent twice, with a provider
    that tells the second request from the first. *)
Lemma sequential_searches_are_serialized_witness :
  handle_websocket no_float_repr plain_str_repr loads
    (search_with_claude no_float_repr plain_str_repr recalling_provider)
    [search_frame; search_frame] []
  = (Ok tt,
     [ProviderCall
        (search_request no_float_repr plain_str_repr (JString "What is MCP protocol?"));
      Sent (text_response "first answer" (JInt 1));
      ProviderCall
        (search_request no_float_repr plain_str_repr (JString "What is MCP protocol?"));
      Sent (text_response "later answer" (JInt 1))]).
Proof.
  exact (sequential_searches_are_serialized no_float_repr plain_str_repr loads
           recalling_provider search_frame search_frame
           search_request_fields search_request_fields
           (JString "What is MCP protocol?") (JString "What is MCP protocol?") []
           eq_refl eq_refl eq_refl eq_refl).
Defined.

(** X11 on two requests, each after a frame that is not JSON. *)
Lemma answerable_messages_are_each_answered_witness :
  fst (handle_websocket no_float_repr plain_str_repr loads
         (search_with_claude no_float_repr plain_str_repr failing_provider)
         [garbage_frame; initialize_frame; garbage_frame; search_frame] [])
  = Ok tt
  /\ List.length
       (responses
          (snd (handle_websocket no_float_repr plain_str_repr loads
                  (search_with_claude no_float_repr plain_str_repr failing_provider)
                  [garbage_frame; initialize_frame; garbage_frame; search_frame] [])))
     = 4%nat.
Proof.
  apply (answerable_messages_are_each_answered no_float_repr plain_str_repr loads
           failing_provider
           [garbage_frame; initialize_frame; garbage_frame; search_frame] []).
  repeat constructor.
Defined.

(** X12 on requests with the identifiers 7, none, 1 and ["abc"]. *)
Lemma responses_carry_the_request_ids_in_order_witness :
  map (field "id")
      (responses
         (snd (handle_websocket no_float_repr plain_str_repr loads
                 (search_with_claude no_float_repr plain_str_repr answering_provider)
                 [initialize_frame; list_frame; search_frame; unknown_method_frame] [])))
  = [JInt 7; JNull; JInt 1; JString "abc"].
Proof.
  exact (responses_carry_the_request_ids_in_order no_float_repr plain_str_repr loads
           answering_provider
           [initialize_frame; list_frame; search_frame; unknown_method_frame]
           [ [("jsonrpc", JString "2.0"); ("method", JString "initialize"); ("id", JInt 7)];
             [("jsonrpc", JString "2.0"); ("method", JString "tools/list")];
             search_request_fields;
             unknown_method_fields ]
           [] eq_refl).
Defined.

(** X14 on a call of [unknown_tool]. *)
Lemma tools_call_with_dict_params_gets_a_result_witness :
  exists text,
    fst (handle_message no_float_repr plain_str_repr loads
           (search_with_claude no_float_repr plain_str_repr failing_provider)
           None unknown_tool_frame [])
    = Ok (Some (JObject unknown_tool_fields))
    /\ responses
         (snd (handle_message no_float_repr plain_str_repr loads
                 (search_with_claude no_float_repr plain_str_repr failing_provider)
                 None unknown_tool_frame []))
       = [text_response text (JInt 2)].
Proof.
  exact (tools_call_with_dict_params_gets_a_result no_float_repr plain_str_repr loads
           failing_provider None unknown_tool_frame unknown_tool_fields
           unknown_tool_params [] eq_refl eq_refl eq_refl).
Defined.

(** X15 on the search call of the test client, which is what
    [send_request] builds for [tools/call] and these [params], with a
    provider that cannot be reached. *)
Lemma client_request_is_answered_with_a_result_witness :
  exists response,
    responses
      (snd (handle_message no_float_repr plain_str_repr loads
              (search_with_claude no_float_repr plain_str_repr failing_provider)
              None search_frame []))
    = [response]
    /\ field "id" response = JInt 1
    /\ has_field "result" response = true
    /\ has_field "error" response = false.
Proof.
  exact (client_request_is_answered_with_a_result no_float_repr plain_str_repr loads
           failing_provider None search_frame "tools/call" (JObject search_params) []
           eq_refl (or_intror eq_refl) (or_intror (or_intror eq_refl))).
Defined.
